(** * scripts/make_text.py: spreadsheet to CRISPRessoBatch input table

    A shallow embedding of [make_text.py].  The script reads a spreadsheet
    with pandas, derives two fastq paths per sample, adds constant columns
    and writes a tab-separated table.

    - A pandas [DataFrame] is a list of labelled columns over a shared
      [RangeIndex]; a column ([Series]) maps index positions to cells.
    - The script is effectful: it logs, raises, consults the file system and
      writes one file.  It is embedded in a state-and-exception monad whose
      state holds the log, the files written and the two local variables of
      [make_text_input] that are DataFrames.
    - [pd.read_excel], [Path.exists], [open] and the creation of the output
      file are oracles of an environment [Env]; each of them may raise.
    - The csv module's encoding of one field and [repr] of a float are
      parameters of the script's section.
    - The model starts at [main()], with the root logger configured by the
      module prologue; [print] (standard output) is outside the model. *)

From Stdlib Require Import ZArith List String Ascii Bool Lia.
From Stdlib Require Import DecimalString.
From Stdlib Require Import Floats.SpecFloat.
Import ListNotations.
Open Scope string_scope.

(** ** Cells, series and frames *)

(** A cell as pandas holds it.  [VNull] is a missing value ([NaN]/[None]);
    a float cell that is NaN is missing as well.  A cell of another scalar
    kind (a boolean, a date) acts in this script as a number does: it is
    neither missing nor a string. *)
Inductive value :=
| VNull
| VStr (s : string)
| VInt (z : Z)
| VFloat (f : spec_float).

Definition isnull (v : value) : bool :=
  match v with
  | VNull => true
  | VFloat S754_nan => true
  | _ => false
  end.

Definition is_str (v : value) : bool :=
  match v with VStr _ => true | _ => false end.

(** A column maps the positions of the index to cells. *)
Definition Column := nat -> value.

(** A frame read by [read_excel] has the index 0 .. [nrows] - 1, which every
    frame derived from it shares. *)
Record DataFrame := {
  nrows : nat;
  columns : list (string * Column)
}.

Record Series := {
  size : nat;
  cells : Column
}.

Definition labels (df : DataFrame) : list string := map fst (columns df).

Definition index (df : DataFrame) : list nat := seq 0 (nrows df).

(** The cells of a series in index order, as iterating over it yields them. *)
Definition values (s : Series) : list value := map (cells s) (seq 0 (size s)).

(** ** Exceptions and results *)

Inductive exn :=
| AssertionError
| AttributeError
| UnboundLocalError
| KeyError (key : string)
| TypeError
| ValueError
| IndexError
| OSError
| KeyboardInterrupt
| SystemExit (code : Z).

Inductive result (A : Type) :=
| Ok (a : A)
| Raise (e : exn).
Arguments Ok {A} a.
Arguments Raise {A} e.

(** The clause [except (SystemExit, KeyboardInterrupt): raise]. *)
Definition reraised (e : exn) : bool :=
  match e with
  | SystemExit _ | KeyboardInterrupt => true
  | _ => false
  end.

(** [IOError] is an alias of [OSError]. *)
Definition is_IOError (e : exn) : bool :=
  match e with OSError => true | _ => false end.

(** ** The log *)

Inductive level := DEBUG | INFO | WARNING | ERROR.

(** The parsed command line, [argparse.Namespace]. *)
Record Namespace := {
  ns_input_file : string;
  ns_quantification_window_center : Z;
  ns_quantification_window_size : Z;
  ns_min_average_read_quality : Z;
  ns_fastq_dir : string;
  ns_min_frequency_alleles_around_cut_to_plot : spec_float;
  ns_plot_window_size : Z;
  ns_outfile : string
}.

Inductive log_arg :=
| LStr (s : string)
| LNamespace (ns : Namespace).

(** A [LogRecord]: the level, the message as passed and its arguments, which
    the logging module formats lazily. *)
Record LogRecord := {
  levelname : level;
  msg : string;
  args : list log_arg;
  exc_info : bool
}.

Definition record (l : level) (m : string) (a : list log_arg) : LogRecord :=
  {| levelname := l; msg := m; args := a; exc_info := false |}.

(** ** Environment and state *)

(** What a file holds: a text as it is, or the compressed form of a text. *)
Inductive content :=
| Plain (text : string)
| Compressed (text : string).

Record Env := {
  (** [pd.read_excel(path)]: the frame read, or the exception raised. *)
  read_excel : string -> result DataFrame;
  (** [Path(p).exists()]: the answer, or the exception raised (an [OSError]
      such as a name too long or a directory that may not be searched). *)
  path_exists : string -> result bool;
  (** [open(p, 'r')]: [None] when the file opens, the exception raised
      otherwise (an [OSError] for an absent file, a [ValueError] for a path
      with a NUL character). *)
  open_read : string -> option exn;
  (** Creating the output file: [None] when it succeeds, the exception
      [to_csv] raises otherwise (nothing is written in that case). *)
  open_write : string -> option exn;
  (** Whether pandas infers a compression from the suffix of the path
      ([compression='infer'], the default of [to_csv]). *)
  infers_compression : string -> bool;
  (** [os.linesep], the line terminator [to_csv] uses. *)
  linesep : string;
  (** [os.getcwd()]. *)
  getcwd : string
}.

Record State := {
  log : list LogRecord;
  files : list (string * content);
  loc_input_df : option DataFrame;
  loc_out_df : option DataFrame
}.

Definition M (A : Type) : Type := State -> result A * State.

Definition ret {A} (a : A) : M A := fun st => (Ok a, st).

Definition bind {A B} (m : M A) (k : A -> M B) : M B :=
  fun st =>
    match m st with
    | (Ok a, st') => k a st'
    | (Raise e, st') => (Raise e, st')
    end.

Definition raise {A} (e : exn) : M A := fun st => (Raise e, st).

Definition lift {A} (r : result A) : M A := fun st => (r, st).

Definition try_except {A} (body : M A) (handler : exn -> M A) : M A :=
  fun st =>
    match body st with
    | (Ok a, st') => (Ok a, st')
    | (Raise e, st') => handler e st'
    end.

Declare Scope monad_scope.
Delimit Scope monad_scope with monad.
Notation "x <- m ;; k" := (bind m (fun x => k))
  (at level 61, m at next level, right associativity) : monad_scope.
Notation "m ;; k" := (bind m (fun _ => k))
  (at level 61, right associativity) : monad_scope.
Open Scope monad_scope.

Fixpoint for_each {A} (l : list A) (body : A -> M unit) : M unit :=
  match l with
  | [] => ret tt
  | x :: xs => body x ;; for_each xs body
  end.

Definition emit (r : LogRecord) : M unit :=
  fun st =>
    (Ok tt, {| log := (log st ++ [r])%list; files := files st;
               loc_input_df := loc_input_df st; loc_out_df := loc_out_df st |}).

Definition logging_info (m : string) (a : list log_arg) : M unit :=
  emit (record INFO m a).

Definition logging_warning (m : string) : M unit :=
  emit (record WARNING m []).

(** [logging.error(m, exc_info=True)]. *)
Definition logging_error (m : string) : M unit :=
  emit {| levelname := ERROR; msg := m; args := []; exc_info := true |}.

Definition assert_ (b : bool) : M unit :=
  if b then ret tt else raise AssertionError.

Definition set_input_df (df : DataFrame) : M unit :=
  fun st =>
    (Ok tt, {| log := log st; files := files st;
               loc_input_df := Some df; loc_out_df := loc_out_df st |}).

Definition set_out_df (df : DataFrame) : M unit :=
  fun st =>
    (Ok tt, {| log := log st; files := files st;
               loc_input_df := loc_input_df st; loc_out_df := Some df |}).

(** Reading a local variable that was never bound raises. *)
Definition get_input_df : M DataFrame :=
  fun st =>
    match loc_input_df st with
    | Some df => (Ok df, st)
    | None => (Raise UnboundLocalError, st)
    end.

Definition get_out_df : M DataFrame :=
  fun st =>
    match loc_out_df st with
    | Some df => (Ok df, st)
    | None => (Raise UnboundLocalError, st)
    end.

Definition write_file (path : string) (c : content) : M unit :=
  fun st =>
    (Ok tt, {| log := log st; files := (path, c) :: files st;
               loc_input_df := loc_input_df st; loc_out_df := loc_out_df st |}).

(** ** pandas operations used by the script *)

(** The columns of [df] labelled [key]. *)
Definition select (df : DataFrame) (key : string) : list (string * Column) :=
  filter (fun c => String.eqb (fst c) key) (columns df).

(** [df[[k1, ..., kn]]]: a [KeyError] for a label that is absent. *)
Fixpoint getitem_list (df : DataFrame) (keys : list string)
  : result (list (string * Column)) :=
  match keys with
  | [] => Ok []
  | k :: ks =>
      match select df k with
      | [] => Raise (KeyError k)
      | cs =>
          match getitem_list df ks with
          | Ok rest => Ok (cs ++ rest)%list
          | Raise e => Raise e
          end
      end
  end.

Definition getitem_frame (df : DataFrame) (keys : list string)
  : result DataFrame :=
  match getitem_list df keys with
  | Ok cs => Ok {| nrows := nrows df; columns := cs |}
  | Raise e => Raise e
  end.

(** [df.columns = names]: a [ValueError] on a length mismatch. *)
Definition set_columns (df : DataFrame) (names : list string)
  : result DataFrame :=
  if Nat.eqb (List.length names) (List.length (columns df))
  then Ok {| nrows := nrows df;
             columns := combine names (map snd (columns df)) |}
  else Raise ValueError.

(** [df[key]] for a label carried by one column. *)
Definition getitem (df : DataFrame) (key : string) : result Series :=
  match select df key with
  | [] => Raise (KeyError key)
  | c :: _ => Ok {| size := nrows df; cells := snd c |}
  end.

(** Replaces the column labelled [key], or appends one. *)
Definition setitem (df : DataFrame) (key : string) (col : Column)
  : DataFrame :=
  if existsb (String.eqb key) (labels df)
  then {| nrows := nrows df;
          columns := map (fun c => if String.eqb (fst c) key
                                   then (key, col) else c) (columns df) |}
  else {| nrows := nrows df; columns := (columns df ++ [(key, col)])%list |}.

(** [df[key] = s] for a series on the index of [df]. *)
Definition setitem_series (df : DataFrame) (key : string) (s : Series)
  : DataFrame :=
  setitem df key (cells s).

(** [df[key] = v]: a scalar is broadcast over the index. *)
Definition setitem_scalar (df : DataFrame) (key : string) (v : value)
  : DataFrame :=
  setitem df key (fun _ => v).

(** [df[key] = other] where [other] is a frame on the same index: it must
    have exactly one column. *)
Definition setitem_frame (df : DataFrame) (key : string) (other : DataFrame)
  : result DataFrame :=
  match columns other with
  | [c] => Ok (setitem df key (snd c))
  | _ => Raise ValueError
  end.

(** [df.insert(loc, key, v)] with a scalar [v]. *)
Definition insert (df : DataFrame) (loc : nat) (key : string) (v : value)
  : result DataFrame :=
  if existsb (String.eqb key) (labels df) then Raise ValueError
  else if Nat.ltb (List.length (columns df)) loc then Raise IndexError
  else Ok {| nrows := nrows df;
             columns := (firstn loc (columns df) ++ (key, fun _ => v)
                         :: skipn loc (columns df))%list |}.

(** [df[df.isnull().any(axis=1)]]: the index positions of the rows that hold
    a missing value. *)
Definition null_rows (df : DataFrame) : list nat :=
  filter (fun i => existsb (fun c => isnull (snd c i)) (columns df))
         (index df).

(** [s + suffix], element-wise.  A string gets the suffix, pandas leaves a
    missing value of an object column as it is, and any other operand is a
    [TypeError].  (The script gets here only after the check of line 90, with
    no missing value left.) *)
Definition add_str (suffix : string) (v : value) : value :=
  match v with
  | VStr x => VStr (x ++ suffix)
  | _ => v
  end.

Definition series_add_str (s : Series) (suffix : string) : result Series :=
  if forallb (fun v => is_str v || isnull v) (values s)
  then Ok {| size := size s; cells := fun i => add_str suffix (cells s i) |}
  else Raise TypeError.

(** [prefix + s], element-wise, on a series of strings. *)
Definition radd_str (prefix : string) (v : value) : value :=
  match v with
  | VStr x => VStr (prefix ++ x)
  | _ => v
  end.

Definition series_radd_str (prefix : string) (s : Series) : result Series :=
  if forallb is_str (values s)
  then Ok {| size := size s; cells := fun i => radd_str prefix (cells s i) |}
  else Raise TypeError.

Definition str_of_Z (z : Z) : string := NilZero.string_of_int (Z.to_int z).

Definition tab : string := String (ascii_of_nat 9) EmptyString.
Definition lf : string := String (ascii_of_nat 10) EmptyString.

(** ** The command line *)

(** What the user passed: the three positionals, and each option if given. *)
Record CommandLine := {
  cl_input_file : string;
  cl_fastq_dir : string;
  cl_outfile : string;
  cl_quantification_window_center : option Z;
  cl_quantification_window_size : option Z;
  cl_min_average_read_quality : option Z;
  cl_min_frequency_alleles_around_cut_to_plot : option spec_float;
  cl_plot_window_size : option Z
}.

Definition with_default {A} (default : A) (given : option A) : A :=
  match given with
  | Some a => a
  | None => default
  end.

(** The double nearest to 0.2: 7205759403792794 * 2^-55. *)
Definition float_0_2 : spec_float :=
  S754_finite false 7205759403792794 (-55).

(** [parser.parse_args()] with the defaults of the [add_argument] calls. *)
Definition parse_args (cl : CommandLine) : Namespace :=
  {| ns_input_file := cl_input_file cl;
     ns_quantification_window_center :=
       with_default (-3)%Z (cl_quantification_window_center cl);
     ns_quantification_window_size :=
       with_default 1%Z (cl_quantification_window_size cl);
     ns_min_average_read_quality :=
       with_default 10%Z (cl_min_average_read_quality cl);
     ns_fastq_dir := cl_fastq_dir cl;
     ns_min_frequency_alleles_around_cut_to_plot :=
       with_default float_0_2
         (cl_min_frequency_alleles_around_cut_to_plot cl);
     ns_plot_window_size :=
       with_default 20%Z (cl_plot_window_size cl);
     ns_outfile := cl_outfile cl |}.

(** ** Reading frames in statements *)

(** The column labelled [key], when exactly one column bears the label. *)
Definition sole (df : DataFrame) (key : string) : option Column :=
  match select df key with
  | [c] => Some (snd c)
  | _ => None
  end.

(** The cell of row [i] under the label [key]. *)
Definition cell (df : DataFrame) (key : string) (i : nat) : option value :=
  match sole df key with
  | Some col => if Nat.ltb i (nrows df) then Some (col i) else None
  | None => None
  end.

Definition null_free (df : DataFrame) : bool :=
  Nat.eqb (List.length (null_rows df)) 0.

(** The input has no missing value and one column of sample names, all of
    them strings. *)
Definition names_accepted (df : DataFrame) : bool :=
  null_free df
  && match sole df "NGS_sample_name" with
     | Some col => forallb is_str (map col (index df))
     | None => false
     end.

Definition has_sole (df : DataFrame) (key : string) : bool :=
  match sole df key with
  | Some _ => true
  | None => false
  end.

(** ... and one column for each of the two sequences. *)
Definition input_accepted (df : DataFrame) : bool :=
  names_accepted df
  && has_sole df "Ref_sequence" && has_sole df "Guide_Sequence".

(** The labels of the output table, in the order of the specification. *)
Definition output_header : list string :=
  [ "name"; "quantification_window_center"; "quantification_window_size";
    "min_average_read_quality"; "fastq_r1"; "fastq_r2"; "amplicon_seq";
    "guide_seq"; "min_frequency_alleles_around_cut_to_plot";
    "plot_window_size" ].

(** A text without tab, double quote, carriage return or line feed: the csv
    module writes such a field as it is. *)
Definition plain_char (c : ascii) : bool :=
  negb (Ascii.eqb c "009"%char || Ascii.eqb c "034"%char
        || Ascii.eqb c "010"%char || Ascii.eqb c "013"%char).

Fixpoint plain (s : string) : bool :=
  match s with
  | EmptyString => true
  | String c s' => plain_char c && plain s'
  end.

(** ** Proof steps *)

(** Evaluates [cell df key i] on a frame whose labels are literals. *)
Ltac eval_cell Hi :=
  unfold cell, sole, select; simpl;
  rewrite (proj2 (Nat.ltb_lt _ _) Hi).

(** Splits a hypothesis [In r [r1; ...; rn]] into its cases. *)
Ltac cases_In :=
  repeat match goal with
         | H : _ \/ _ |- _ => destruct H
         | H : False |- _ => destruct H
         end.

(** ** Sample inputs

    The scenario of the specification, and variations of it. *)

Definition column_of (cells : list value) : Column :=
  fun i => nth i cells VNull.

(** One sample, as in the scenario. *)
Definition sample_df : DataFrame :=
  {| nrows := 1;
     columns :=
       [ ("NGS_sample_name", column_of [VStr "S1"]);
         ("Ref_sequence", column_of [VStr "ACGT"]);
         ("Guide_Sequence", column_of [VStr "AC"]) ] |}.

(** The same sheet with a further column, whose cell is empty. *)
Definition sample_df_empty_note : DataFrame :=
  {| nrows := 1;
     columns :=
       [ ("NGS_sample_name", column_of [VStr "S1"]);
         ("Ref_sequence", column_of [VStr "ACGT"]);
         ("Guide_Sequence", column_of [VStr "AC"]);
         ("Notes", column_of [VNull]) ] |}.

(** The same sheet with an empty guide sequence. *)
Definition sample_df_no_guide : DataFrame :=
  {| nrows := 1;
     columns :=
       [ ("NGS_sample_name", column_of [VStr "S1"]);
         ("Ref_sequence", column_of [VStr "ACGT"]);
         ("Guide_Sequence", column_of [VNull]) ] |}.

(** A sheet whose sample names are numbers. *)
Definition sample_df_numbered : DataFrame :=
  {| nrows := 1;
     columns :=
       [ ("NGS_sample_name", column_of [VInt 1]);
         ("Ref_sequence", column_of [VStr "ACGT"]);
         ("Guide_Sequence", column_of [VStr "AC"]) ] |}.

(** Whether [s] ends in [suffix]. *)
Definition ends_with (suffix s : string) : bool :=
  Nat.leb (String.length suffix) (String.length s)
  && String.eqb
       (substring (String.length s - String.length suffix)
                  (String.length suffix) s)
       suffix.

(** A machine on which ["samples.xlsx"] reads as [df], the directory
    ["/data/"] exists iff [dir], none of the fastq files exists or opens,
    ["input.txt"] can be created iff [writable], a path in [.gz] is written
    compressed and lines end in a line feed. *)
Definition sample_env (df : DataFrame) (dir writable : bool) : Env :=
  {| read_excel := fun p =>
       if String.eqb p "samples.xlsx" then Ok df else Raise OSError;
     path_exists := fun p => Ok (String.eqb p "/data/" && dir);
     open_read := fun p => Some OSError;
     open_write := fun p =>
       if String.eqb p "input.txt" && writable then None else Some OSError;
     infers_compression := ends_with ".gz";
     linesep := String "010"%char EmptyString;
     getcwd := "/home/user" |}.




(** The field encoding of the csv module of Python 3.11 with the tab as
    delimiter and the line feed as terminator: a field with a tab, a double
    quote or a line feed is wrapped in quotes, with its quotes doubled; any
    other field is written as it is. *)
Fixpoint needs_quotes (s : string) : bool :=
  match s with
  | EmptyString => false
  | String c s' =>
      Ascii.eqb c "009"%char || Ascii.eqb c "034"%char
      || Ascii.eqb c "010"%char || needs_quotes s'
  end.

Fixpoint double_quotes (s : string) : string :=
  match s with
  | EmptyString => EmptyString
  | String c s' =>
      if Ascii.eqb c "034"%char
      then String "034"%char (String "034"%char (double_quotes s'))
      else String c (double_quotes s')
  end.

Definition sample_csv_quote (s : string) : string :=
  if needs_quotes s
  then String "034"%char (double_quotes s ++ String "034"%char EmptyString)
  else s.

(** [make_text samples.xlsx /data/ input.txt]. *)
Definition sample_cl : CommandLine :=
  {| cl_input_file := "samples.xlsx";
     cl_fastq_dir := "/data/";
     cl_outfile := "input.txt";
     cl_quantification_window_center := None;
     cl_quantification_window_size := None;
     cl_min_average_read_quality := None;
     cl_min_frequency_alleles_around_cut_to_plot := None;
     cl_plot_window_size := None |}.

(** The same with [--quantification_window_size 5 --plot_window_size 40]. *)
Definition sample_cl_options : CommandLine :=
  {| cl_input_file := "samples.xlsx";
     cl_fastq_dir := "/data/";
     cl_outfile := "input.txt";
     cl_quantification_window_center := None;
     cl_quantification_window_size := Some 5%Z;
     cl_min_average_read_quality := None;
     cl_min_frequency_alleles_around_cut_to_plot := None;
     cl_plot_window_size := Some 40%Z |}.

(** [make_text absent.xlsx /data/ input.txt]. *)
Definition sample_cl_absent : CommandLine :=
  {| cl_input_file := "absent.xlsx";
     cl_fastq_dir := "/data/";
     cl_outfile := "input.txt";
     cl_quantification_window_center := None;
     cl_quantification_window_size := None;
     cl_min_average_read_quality := None;
     cl_min_frequency_alleles_around_cut_to_plot := None;
     cl_plot_window_size := None |}.

(** A sheet without the column of sample names. *)
Definition sample_df_no_name_column : DataFrame :=
  {| nrows := 1;
     columns :=
       [ ("Ref_sequence", column_of [VStr "ACGT"]);
         ("Guide_Sequence", column_of [VStr "AC"]) ] |}.

(** A sheet without the column of guide sequences. *)
Definition sample_df_no_guide_column : DataFrame :=
  {| nrows := 1;
     columns :=
       [ ("NGS_sample_name", column_of [VStr "S1"]);
         ("Ref_sequence", column_of [VStr "ACGT"]) ] |}.

(** A sheet with its header row only. *)
Definition sample_df_empty : DataFrame :=
  {| nrows := 0;
     columns :=
       [ ("NGS_sample_name", column_of []);
         ("Ref_sequence", column_of []);
         ("Guide_Sequence", column_of []) ] |}.



(** [make_text samples.xlsx /data/ input.txt
    --min_frequency_alleles_around_cut_to_plot nan]. *)
Definition sample_cl_nan : CommandLine :=
  {| cl_input_file := "samples.xlsx";
     cl_fastq_dir := "/data/";
     cl_outfile := "input.txt";
     cl_quantification_window_center := None;
     cl_quantification_window_size := None;
     cl_min_average_read_quality := None;
     cl_min_frequency_alleles_around_cut_to_plot := Some S754_nan;
     cl_plot_window_size := None |}.

(** A machine like [sample_env sample_df true true] on which the user
    interrupts the read ([read_interrupted]) or else the write. *)
Definition sample_env_interrupted (read_interrupted : bool) : Env :=
  {| read_excel := fun p =>
       if read_interrupted then Raise KeyboardInterrupt else Ok sample_df;
     path_exists := fun p => Ok (String.eqb p "/data/");
     open_read := fun p => Some OSError;
     open_write := fun p => Some KeyboardInterrupt;
     infers_compression := ends_with ".gz";
     linesep := String "010"%char EmptyString;
     getcwd := "/home/user" |}.


(** ** What a computation adds to the log *)

(** [m] only appends to the log, and every record it appends satisfies
    [Q]. *)
Definition appends_only (Q : LogRecord -> Prop) {A} (m : M A) : Prop :=
  forall st,
    exists added,
      log (snd (m st)) = (log st ++ added)%list /\ Forall Q added.

(** The records the script may log: none with the message of line 87, and
    at level [ERROR] only the one of line 133. *)
Definition expected_record (r : LogRecord) : Prop :=
  msg r <> "Failed to open file"
  /\ (levelname r = ERROR ->
      r = {| levelname := ERROR; msg := "Failed to write file"; args := [];
             exc_info := true |}).

(** [repr] on the one float the samples print. *)
Definition sample_repr (f : spec_float) : string := "0.2".

(** ** The script *)

Section Script.

(** [repr] of a float, as [str] and [to_csv] print it. *)
Variable float_repr : spec_float -> string.

(** The csv module's encoding of one field, with the tab as delimiter and
    minimal quoting.  Which fields it quotes depends on the version of
    Python and on the line terminator; a plain field is written as it
    is. *)
Variable csv_quote : string -> string.

Hypothesis csv_quote_plain : forall s, plain s = true -> csv_quote s = s.

Variable env : Env.

Definition str (v : value) : string :=
  match v with
  | VNull => "nan"
  | VStr s => s
  | VInt z => str_of_Z z
  | VFloat f => float_repr f
  end.

(** [s.astype(str)]. *)
Definition astype_str (s : Series) : Series :=
  {| size := size s; cells := fun i => VStr (str (cells s i)) |}.

(** A cell as [to_csv] prints it; a missing value prints as the empty
    string. *)
Definition csv_cell (v : value) : string :=
  if isnull v then EmptyString else str v.

(** The records [to_csv(..., index=False)] writes: the labels, then one
    record per index position with the cells in column order. *)
Definition csv_table (df : DataFrame) : list (list string) :=
  labels df
  :: map (fun i => map (fun c => csv_cell (snd c i)) (columns df)) (index df).

(** One record of the file: the fields encoded, joined by tabs, and the
    line terminator. *)
Definition csv_line (fields : list string) : string :=
  String.concat tab (map csv_quote fields) ++ linesep env.

Definition csv_text (table : list (list string)) : string :=
  String.concat EmptyString (map csv_line table).

(** [df.to_csv(path, sep="\t", index=False)]: the text goes to the file as
    it is, or compressed when pandas infers a compression from the path. *)
Definition to_csv (df : DataFrame) (path : string) : M unit :=
  match open_write env path with
  | Some e => raise e
  | None =>
      write_file path
        (if infers_compression env path
         then Compressed (csv_text (csv_table df))
         else Plain (csv_text (csv_table df)))
  end.

(** [{x for x in s if not Path(x).exists()}]; [Path(x)] is a [TypeError]
    unless [x] is a string.  Python leaves the iteration order of a set
    open; the model keeps the elements as a list. *)
Fixpoint missing_of (xs : list value) : M (list string) :=
  match xs with
  | [] => ret []
  | VStr p :: xs' =>
      found <- lift (path_exists env p) ;;
      rest <- missing_of xs' ;;
      ret (if found then rest else p :: rest)
  | _ :: _ => raise TypeError
  end.

(** [a.union(b)] on sets held as lists. *)
Definition union (a b : list string) : list string :=
  nodup string_dec (a ++ b)%list.

(** [open(file, 'r')]. *)
Definition open_r (file : string) : M unit :=
  match open_read env file with
  | None => ret tt
  | Some e => raise e
  end.

(** Reads and updates of the local [out_df]. *)
Definition update_out_df (f : DataFrame -> result DataFrame) : M unit :=
  df <- get_out_df ;;
  df' <- lift (f df) ;;
  set_out_df df'.

Definition out_getitem (key : string) : M Series :=
  df <- get_out_df ;;
  lift (getitem df key).

Definition out_setitem (key : string) (s : Series) : M unit :=
  update_out_df (fun df => Ok (setitem_series df key s)).

(** Lines 81-87 of [make_text_input]. *)
Definition open_input (input_file : string) : M unit :=
  try_except
    (df <- lift (read_excel env input_file) ;;
     set_input_df df ;;
     logging_info "Successfully opened %s" [LStr input_file])
    (fun e =>
       if reraised e then raise e
       else
         (* [logging.info.error(...)]: the function [logging.info] has no
            attribute [error] *)
         raise AttributeError).

(** Lines 89-90. *)
Definition check_input_nulls : M unit :=
  logging_info "Checking for null values in input_excel.xlsx..." [] ;;
  input_df <- get_input_df ;;
  assert_ (Nat.eqb (List.length (null_rows input_df)) 0).

(** Lines 92-100. *)
Definition derive_paths (fastq_dir : string) : M unit :=
  input_df <- get_input_df ;;
  out_df <- lift (getitem_frame input_df ["NGS_sample_name"]) ;;
  set_out_df out_df ;;
  update_out_df (fun df => set_columns df ["name"]) ;;
  name <- out_getitem "name" ;;
  r1 <- lift (series_add_str name "_R1_001.fastq.gz") ;;
  out_setitem "fastq_r1" r1 ;;
  r1 <- out_getitem "fastq_r1" ;;
  r1 <- lift (series_radd_str fastq_dir (astype_str r1)) ;;
  out_setitem "fastq_r1" r1 ;;
  name <- out_getitem "name" ;;
  r2 <- lift (series_add_str name "_R2_001.fastq.gz") ;;
  out_setitem "fastq_r2" r2 ;;
  r2 <- out_getitem "fastq_r2" ;;
  r2 <- lift (series_radd_str fastq_dir (astype_str r2)) ;;
  out_setitem "fastq_r2" r2.

(** Lines 102-110. *)
Definition warn_missing : M unit :=
  logging_info "Checking that all paths to fastq files exist..." [] ;;
  r2 <- out_getitem "fastq_r2" ;;
  missing_r2 <- missing_of (values r2) ;;
  r1 <- out_getitem "fastq_r1" ;;
  missing_r1 <- missing_of (values r1) ;;
  let missing_fastq_files := union missing_r2 missing_r1 in
  for_each missing_fastq_files (fun file =>
    try_except
      (open_r file)
      (fun e =>
         if is_IOError e
         then logging_warning ("File does not exist: " ++ file)
         else raise e)).

(** Lines 112-116. *)
Definition insert_parameters
    (quantification_window_center quantification_window_size
     min_average_read_quality : Z) : M unit :=
  update_out_df (fun df =>
    insert df 1 "quantification_window_center"
           (VInt quantification_window_center)) ;;
  update_out_df (fun df =>
    insert df 2 "quantification_window_size"
           (VInt quantification_window_size)) ;;
  update_out_df (fun df =>
    insert df 3 "min_average_read_quality" (VInt min_average_read_quality)).

(** Lines 118-119. *)
Definition check_fastq_dir (fastq_dir : string) : M unit :=
  found <- lift (path_exists env fastq_dir) ;;
  assert_ found.

(** Lines 121-124. *)
Definition add_sequences_and_plot_parameters
    (min_frequency_alleles_around_cut_to_plot : spec_float)
    (plot_window_size : Z) : M unit :=
  input_df <- get_input_df ;;
  ref <- lift (getitem_frame input_df ["Ref_sequence"]) ;;
  update_out_df (fun df => setitem_frame df "amplicon_seq" ref) ;;
  input_df <- get_input_df ;;
  guide <- lift (getitem_frame input_df ["Guide_Sequence"]) ;;
  update_out_df (fun df => setitem_frame df "guide_seq" guide) ;;
  update_out_df (fun df =>
    Ok (setitem_scalar df "min_frequency_alleles_around_cut_to_plot"
          (VFloat min_frequency_alleles_around_cut_to_plot))) ;;
  update_out_df (fun df =>
    Ok (setitem_scalar df "plot_window_size" (VInt plot_window_size))).

(** Line 126. *)
Definition check_output_nulls : M unit :=
  out_df <- get_out_df ;;
  assert_ (Nat.eqb (List.length (null_rows out_df)) 0).

(** Lines 128-133. *)
Definition write_output (outfile : string) : M unit :=
  try_except
    (out_df <- get_out_df ;;
     to_csv out_df outfile)
    (fun e =>
       if reraised e then raise e
       else logging_error "Failed to write file").

(** Lines 135-137. *)
Definition finish (input_file outfile : string) : M unit :=
  logging_info "Successfully converted %s to %s for CRISPRessoBatch!"
               [LStr input_file; LStr outfile] ;;
  raise (SystemExit 0).

Definition make_text_input
    (input_file : string)
    (quantification_window_center quantification_window_size
     min_average_read_quality : Z)
    (fastq_dir : string)
    (min_frequency_alleles_around_cut_to_plot : spec_float)
    (plot_window_size : Z)
    (outfile : string) : M unit :=
  logging_info "Making input.txt file" [] ;;
  open_input input_file ;;
  check_input_nulls ;;
  derive_paths fastq_dir ;;
  warn_missing ;;
  insert_parameters quantification_window_center quantification_window_size
                    min_average_read_quality ;;
  check_fastq_dir fastq_dir ;;
  add_sequences_and_plot_parameters min_frequency_alleles_around_cut_to_plot
                                    plot_window_size ;;
  check_output_nulls ;;
  write_output outfile ;;
  finish input_file outfile.

Definition main (cl : CommandLine) : M unit :=
  logging_info "make_text.py started in %s" [LStr (getcwd env)] ;;
  let args := parse_args cl in
  logging_info ("params:" ++ lf ++ " %s") [LNamespace args] ;;
  make_text_input
    (ns_input_file args)
    (ns_quantification_window_center args)
    (ns_quantification_window_size args)
    (ns_min_average_read_quality args)
    (ns_fastq_dir args)
    (ns_min_frequency_alleles_around_cut_to_plot args)
    (ns_plot_window_size args)
    (ns_outfile args).

(** The state in which [main] starts: the four records the module prologue
    logs, no file written, no local bound. *)
Definition initial_state : State :=
  {| log := [ record DEBUG "DEBUG message." [];
              record INFO "INFO message." [];
              record WARNING "WARNING message." [];
              record ERROR "ERROR message." [] ];
     files := [];
     loc_input_df := None;
     loc_out_df := None |}.

(** How the process ends: an exit status, or an exception nobody caught. *)
Inductive outcome :=
| Exited (status : Z)
| Uncaught (e : exn).

Definition outcome_of (r : result unit) : outcome :=
  match r with
  | Ok _ => Exited 0
  | Raise (SystemExit status) => Exited status
  | Raise e => Uncaught e
  end.

(** Running the script on a command line. *)
Definition run (cl : CommandLine) : outcome * State :=
  let (r, st) := main cl initial_state in (outcome_of r, st).


(** *** The frames the script builds

    Used to state what each block of [make_text_input] leaves in [out_df]. *)

(** A path cell: the directory, then the cell printed with its suffix. *)
Definition path_column (fastq_dir suffix : string) (name : Column) : Column :=
  fun i => VStr (fastq_dir ++ str (add_str suffix (name i))).

(** [out_df] after lines 92-100. *)
Definition paths_frame (n : nat) (fastq_dir : string) (name : Column)
  : DataFrame :=
  {| nrows := n;
     columns :=
       [ ("name", name);
         ("fastq_r1", path_column fastq_dir "_R1_001.fastq.gz" name);
         ("fastq_r2", path_column fastq_dir "_R2_001.fastq.gz" name) ] |}.

(** [out_df] after lines 112-116. *)
Definition parameters_frame (n : nat) (fastq_dir : string) (name : Column)
    (qwc qws marq : Z) : DataFrame :=
  {| nrows := n;
     columns :=
       [ ("name", name);
         ("quantification_window_center", fun _ => VInt qwc);
         ("quantification_window_size", fun _ => VInt qws);
         ("min_average_read_quality", fun _ => VInt marq);
         ("fastq_r1", path_column fastq_dir "_R1_001.fastq.gz" name);
         ("fastq_r2", path_column fastq_dir "_R2_001.fastq.gz" name) ] |}.

(** [out_df] after lines 121-124. *)
Definition final_frame (n : nat) (fastq_dir : string)
    (name ref guide : Column) (qwc qws marq : Z) (mfa : spec_float)
    (pws : Z) : DataFrame :=
  {| nrows := n;
     columns :=
       [ ("name", name);
         ("quantification_window_center", fun _ => VInt qwc);
         ("quantification_window_size", fun _ => VInt qws);
         ("min_average_read_quality", fun _ => VInt marq);
         ("fastq_r1", path_column fastq_dir "_R1_001.fastq.gz" name);
         ("fastq_r2", path_column fastq_dir "_R2_001.fastq.gz" name);
         ("amplicon_seq", ref);
         ("guide_seq", guide);
         ("min_frequency_alleles_around_cut_to_plot", fun _ => VFloat mfa);
         ("plot_window_size", fun _ => VInt pws) ] |}.

(** The paths of a column of [out_df], in index order. *)
Definition derived_paths (n : nat) (fastq_dir suffix : string)
    (name : Column) : list string :=
  map (fun i => fastq_dir ++ str (add_str suffix (name i))) (seq 0 n).

(** [Path(p).exists()] returns on each of [ps]. *)
Definition checks_return (ps : list string) : bool :=
  forallb (fun p => match path_exists env p with
                    | Ok _ => true
                    | Raise _ => false
                    end) ps.

(** [Path(p).exists()] returns [False]. *)
Definition absent (p : string) : bool :=
  match path_exists env p with
  | Ok false => true
  | _ => false
  end.

(** The set [missing_fastq_files] of line 104. *)
Definition missing_paths (n : nat) (fastq_dir suffix : string)
    (name : Column) : list string :=
  filter absent (derived_paths n fastq_dir suffix name).

Definition missing_fastq (n : nat) (fastq_dir : string) (name : Column)
  : list string :=
  union (missing_paths n fastq_dir "_R2_001.fastq.gz" name)
        (missing_paths n fastq_dir "_R1_001.fastq.gz" name).

Definition warning_for (file : string) : LogRecord :=
  record WARNING ("File does not exist: " ++ file) [].

(** On each of [ps], [open(p, 'r')] opens the file or raises an [OSError],
    the one failure the handler of line 109 catches. *)
Definition opens_cleanly (ps : list string) : bool :=
  forallb (fun p => match open_read env p with
                    | Some e => is_IOError e
                    | None => true
                    end) ps.

(** The paths among [ps] that do not open. *)
Definition warned (ps : list string) : list string :=
  filter (fun p => match open_read env p with
                   | Some _ => true
                   | None => false
                   end) ps.

(** Lines 104-110 run to their end on the paths derived from [name]: every
    [Path(x).exists()] returns and no [open] raises anything but an
    [OSError]. *)
Definition existence_checks (n : nat) (fastq_dir : string) (name : Column)
  : bool :=
  checks_return (derived_paths n fastq_dir "_R2_001.fastq.gz" name)
  && checks_return (derived_paths n fastq_dir "_R1_001.fastq.gz" name)
  && opens_cleanly (missing_fastq n fastq_dir name).

(** The same for the sample names of a sheet. *)
Definition existence_checks_complete (df : DataFrame) (fastq_dir : string)
  : bool :=
  match sole df "NGS_sample_name" with
  | Some name => existence_checks (nrows df) fastq_dir name
  | None => false
  end.

(** The script from line 92 on, from line 118 on and from line 128 on:
    tails of [make_text_input], to follow a run block by block. *)
Definition from_derive_paths
    (input_file : string) (qwc qws marq : Z) (fastq_dir : string)
    (mfa : spec_float) (pws : Z) (outfile : string) : M unit :=
  derive_paths fastq_dir ;;
  warn_missing ;;
  insert_parameters qwc qws marq ;;
  check_fastq_dir fastq_dir ;;
  add_sequences_and_plot_parameters mfa pws ;;
  check_output_nulls ;;
  write_output outfile ;;
  finish input_file outfile.

Definition from_check_fastq_dir
    (input_file fastq_dir : string) (mfa : spec_float) (pws : Z)
    (outfile : string) : M unit :=
  check_fastq_dir fastq_dir ;;
  add_sequences_and_plot_parameters mfa pws ;;
  check_output_nulls ;;
  write_output outfile ;;
  finish input_file outfile.

Definition from_write_output (input_file outfile : string) : M unit :=
  write_output outfile ;;
  finish input_file outfile.

(** The log of a run that started with log [l], after lines 79-87, after
    lines 89-90 and after lines 102-110. *)
Definition log_opened (l : list LogRecord) (input_file : string)
  : list LogRecord :=
  ((l ++ [record INFO "Making input.txt file" []])
   ++ [record INFO "Successfully opened %s" [LStr input_file]])%list.

Definition log_nulls_checked (l : list LogRecord) (input_file : string)
  : list LogRecord :=
  (log_opened l input_file
   ++ [record INFO "Checking for null values in input_excel.xlsx..." []])%list.

Definition log_paths_checked (l : list LogRecord)
    (input_file fastq_dir : string) (n : nat) (name : Column)
  : list LogRecord :=
  ((log_nulls_checked l input_file
    ++ [record INFO "Checking that all paths to fastq files exist..." []])
   ++ map warning_for (warned (missing_fastq n fastq_dir name)))%list.

(** The state in which [main] calls [make_text_input]. *)
Definition started_state (cl : CommandLine) : State :=
  {| log := ((log initial_state
              ++ [record INFO "make_text.py started in %s"
                         [LStr (getcwd env)]])
             ++ [record INFO ("params:" ++ lf ++ " %s")
                        [LNamespace (parse_args cl)]])%list;
     files := [];
     loc_input_df := None;
     loc_out_df := None |}.

(** The table a run on [cl] builds from the columns of its input. *)
Definition table_of (cl : CommandLine) (n : nat) (name ref guide : Column)
  : DataFrame :=
  final_frame n (ns_fastq_dir (parse_args cl)) name ref guide
    (ns_quantification_window_center (parse_args cl))
    (ns_quantification_window_size (parse_args cl))
    (ns_min_average_read_quality (parse_args cl))
    (ns_min_frequency_alleles_around_cut_to_plot (parse_args cl))
    (ns_plot_window_size (parse_args cl)).

Definition converted_record (cl : CommandLine) : LogRecord :=
  record INFO "Successfully converted %s to %s for CRISPRessoBatch!"
         [LStr (cl_input_file cl); LStr (cl_outfile cl)].

Definition write_failed_record : LogRecord :=
  {| levelname := ERROR; msg := "Failed to write file"; args := [];
     exc_info := true |}.

(** The first line of the output file: the labels joined by tabs. *)
Definition header_line : string :=
  String.concat (String "009"%char EmptyString) output_header ++ linesep env.

(** One record of a tab-separated file: the fields as they stand in the
    file, a tab between neighbours, then the line terminator. *)
Definition record_line (fields : list string) : string :=
  String.concat (String "009"%char EmptyString) fields ++ linesep env.

(** The text of a tab-separated file with these records, one after the
    other, each field in the encoding of the csv module. *)
Definition tsv_text (records : list (list string)) : string :=
  String.concat EmptyString
    (map (fun fields => record_line (map csv_quote fields)) records).

(** What the file holds for a text written to [path]. *)
Definition stored (path text : string) : content :=
  if infers_compression env path then Compressed text else Plain text.

(** ** Lemmas on the blocks of [make_text_input] *)


Lemma bind_ok {A B} (m : M A) (k : A -> M B) st a st1 :
  m st = (Ok a, st1) -> bind m k st = k a st1.
Proof. intros H. unfold bind. now rewrite H. Qed.

Lemma bind_raise {A B} (m : M A) (k : A -> M B) st e st1 :
  m st = (Raise e, st1) -> bind m k st = (Raise e, st1).
Proof. intros H. unfold bind. now rewrite H. Qed.

Lemma open_input_ok input_file df l f i o :
  read_excel env input_file = Ok df ->
  open_input input_file
    {| log := l; files := f; loc_input_df := i; loc_out_df := o |} =
  (Ok tt,
   {| log := (l ++ [record INFO "Successfully opened %s" [LStr input_file]])%list;
      files := f; loc_input_df := Some df; loc_out_df := o |}).
Proof.
  intros H. unfold open_input, try_except, bind, lift. now rewrite H.
Qed.

Lemma open_input_raise input_file e st :
  read_excel env input_file = Raise e ->
  open_input input_file st =
  (Raise (if reraised e then e else AttributeError), st).
Proof.
  intros H. unfold open_input, try_except, bind, lift. rewrite H.
  now destruct (reraised e).
Qed.

Lemma check_input_nulls_spec df l f o :
  check_input_nulls
    {| log := l; files := f; loc_input_df := Some df; loc_out_df := o |} =
  ((if null_free df then Ok tt else Raise AssertionError),
   {| log := (l ++ [record INFO
                      "Checking for null values in input_excel.xlsx..." []])%list;
      files := f; loc_input_df := Some df; loc_out_df := o |}).
Proof.
  unfold check_input_nulls, bind, logging_info, emit, get_input_df, assert_,
    null_free.
  simpl. now destruct (Nat.eqb _ 0).
Qed.

Lemma forallb_is_str_or_null (col : Column) (l : list nat) :
  forallb is_str (map col l) = true ->
  forallb (fun v => is_str v || isnull v) (map col l) = true.
Proof.
  induction l as [|i l IH]; simpl; [easy|].
  intros H. apply andb_true_iff in H as [H1 H2].
  now rewrite H1, IH.
Qed.

Lemma forallb_is_str_VStr (g : nat -> string) (l : list nat) :
  forallb is_str (map (fun i => VStr (g i)) l) = true.
Proof. induction l; simpl; auto. Qed.

Lemma derive_paths_spec fastq_dir df l f o :
  derive_paths fastq_dir
    {| log := l; files := f; loc_input_df := Some df; loc_out_df := o |} =
  match select df "NGS_sample_name" with
  | [] =>
      (Raise (KeyError "NGS_sample_name"),
       {| log := l; files := f; loc_input_df := Some df; loc_out_df := o |})
  | [c] =>
      if forallb (fun v => is_str v || isnull v)
                 (map (snd c) (seq 0 (nrows df)))
      then (Ok tt,
            {| log := l; files := f; loc_input_df := Some df;
               loc_out_df := Some (paths_frame (nrows df) fastq_dir (snd c)) |})
      else (Raise TypeError,
            {| log := l; files := f; loc_input_df := Some df;
               loc_out_df :=
                 Some {| nrows := nrows df; columns := [("name", snd c)] |} |})
  | c :: c' :: cs =>
      (Raise ValueError,
       {| log := l; files := f; loc_input_df := Some df;
          loc_out_df :=
            Some {| nrows := nrows df; columns := c :: c' :: cs |} |})
  end.
Proof.
  unfold derive_paths, bind, get_input_df, lift, getitem_frame. simpl.
  destruct (select df "NGS_sample_name") as [|c [|c' cs]] eqn:Hsel.
  - reflexivity.
  - simpl.
    unfold update_out_df, out_getitem, bind, get_out_df, set_out_df, lift.
    simpl. unfold series_add_str, values. simpl.
    destruct (forallb _ (map (snd c) (seq 0 (nrows df)))); [|reflexivity].
    unfold series_radd_str, astype_str, values. simpl.
    rewrite !forallb_is_str_VStr. reflexivity.
  - rewrite app_nil_r. reflexivity.
Qed.

Lemma missing_of_ok (ps : list string) st :
  checks_return ps = true ->
  missing_of (map VStr ps) st = (Ok (filter absent ps), st).
Proof.
  induction ps as [|p ps IH]; simpl; [reflexivity|].
  intros H. apply andb_true_iff in H as [Hp Hps].
  unfold bind, lift, absent.
  destruct (path_exists env p) as [found|e]; [|discriminate].
  rewrite (IH Hps). unfold ret. now destruct found.
Qed.

Lemma missing_of_raises (ps : list string) st :
  checks_return ps = false ->
  exists e p,
    In p ps /\ path_exists env p = Raise e
    /\ missing_of (map VStr ps) st = (Raise e, st).
Proof.
  induction ps as [|p ps IH]; simpl; [discriminate|].
  intros H. unfold bind, lift.
  destruct (path_exists env p) as [found|e] eqn:Hp.
  - simpl in H. destruct (IH H) as (e & q & Hq & He & Hraise).
    exists e, q. rewrite Hraise. auto.
  - exists e, p. auto.
Qed.

Lemma for_each_warn_ok (ps : list string) l f i o :
  opens_cleanly ps = true ->
  for_each ps (fun file =>
    try_except (open_r file)
      (fun e => if is_IOError e
                then logging_warning ("File does not exist: " ++ file)
                else raise e))
    {| log := l; files := f; loc_input_df := i; loc_out_df := o |} =
  (Ok tt,
   {| log := (l ++ map warning_for (warned ps))%list; files := f;
      loc_input_df := i; loc_out_df := o |}).
Proof.
  revert l. induction ps as [|p ps IH]; intros l H; simpl.
  - now rewrite app_nil_r.
  - apply andb_true_iff in H as [Hp Hps].
    unfold bind, try_except, open_r.
    destruct (open_read env p) as [e|]; simpl.
    + rewrite Hp. unfold logging_warning, emit. simpl.
      rewrite (IH _ Hps). now rewrite <- app_assoc.
    + now rewrite (IH _ Hps).
Qed.

Lemma for_each_warn_raises (ps : list string) l f i o :
  opens_cleanly ps = false ->
  exists e p st',
    In p ps /\ open_read env p = Some e /\ is_IOError e = false
    /\ for_each ps (fun file =>
         try_except (open_r file)
           (fun e => if is_IOError e
                     then logging_warning ("File does not exist: " ++ file)
                     else raise e))
         {| log := l; files := f; loc_input_df := i; loc_out_df := o |}
       = (Raise e, st')
    /\ files st' = f /\ loc_input_df st' = i /\ loc_out_df st' = o.
Proof.
  revert l. induction ps as [|p ps IH]; intros l H; [discriminate|].
  simpl in H. cbn [for_each].
  destruct (open_read env p) as [e|] eqn:Hp.
  - destruct (is_IOError e) eqn:He; simpl in H.
    + destruct (IH (l ++ [warning_for p])%list H)
        as (e' & q & st' & Hq & Hopen & He' & Hraise & Hst).
      exists e', q, st'. repeat split; try tauto; [now right|].
      etransitivity; [apply bind_ok|exact Hraise].
      unfold try_except, open_r. rewrite Hp. simpl. rewrite He. reflexivity.
    + exists e, p. eexists.
      split; [now left|]. split; [exact Hp|]. split; [exact He|].
      split.
      { apply bind_raise.
        unfold try_except, open_r. rewrite Hp. simpl. rewrite He.
        reflexivity. }
      repeat split.
  - simpl in H.
    destruct (IH l H) as (e' & q & st' & Hq & Hopen & He' & Hraise & Hst).
    exists e', q, st'. repeat split; try tauto; [now right|].
    etransitivity; [apply bind_ok|exact Hraise].
    unfold try_except, open_r. rewrite Hp. reflexivity.
Qed.



Lemma missing_of_derived n fastq_dir suffix name st :
  checks_return (derived_paths n fastq_dir suffix name) = true ->
  missing_of
    (map (fun i => VStr (fastq_dir ++ str (add_str suffix (name i))))
         (seq 0 n)) st =
  (Ok (missing_paths n fastq_dir suffix name), st).
Proof.
  intros H. unfold missing_paths. rewrite <- (missing_of_ok _ st H).
  unfold derived_paths. now rewrite map_map.
Qed.

Lemma missing_of_derived_raises n fastq_dir suffix name st :
  checks_return (derived_paths n fastq_dir suffix name) = false ->
  exists e p,
    path_exists env p = Raise e
    /\ missing_of
         (map (fun i => VStr (fastq_dir ++ str (add_str suffix (name i))))
              (seq 0 n)) st = (Raise e, st).
Proof.
  intros H. destruct (missing_of_raises _ st H) as (e & p & _ & Hp & Hr).
  exists e, p. split; [exact Hp|]. rewrite <- Hr.
  unfold derived_paths. now rewrite map_map.
Qed.

(** Lines 102-110 when they run to their end. *)
Lemma warn_missing_paths n fastq_dir name l f i :
  existence_checks n fastq_dir name = true ->
  warn_missing
    {| log := l; files := f; loc_input_df := i;
       loc_out_df := Some (paths_frame n fastq_dir name) |} =
  (Ok tt,
   {| log := ((l ++ [record INFO
                       "Checking that all paths to fastq files exist..." []])
              ++ map warning_for
                     (warned (missing_fastq n fastq_dir name)))%list;
      files := f; loc_input_df := i;
      loc_out_df := Some (paths_frame n fastq_dir name) |}).
Proof.
  unfold existence_checks. intros H.
  apply andb_true_iff in H as [H Hopen].
  apply andb_true_iff in H as [H2 H1].
  unfold warn_missing.
  erewrite bind_ok by reflexivity.
  erewrite bind_ok by reflexivity.
  erewrite bind_ok
    by (apply (missing_of_derived n fastq_dir "_R2_001.fastq.gz" name);
        exact H2).
  erewrite bind_ok by reflexivity.
  erewrite bind_ok
    by (apply (missing_of_derived n fastq_dir "_R1_001.fastq.gz" name);
        exact H1).
  now apply for_each_warn_ok.
Qed.

(** ... and when a check of line 104 or an [open] of line 108 raises. *)
Lemma warn_missing_raises n fastq_dir name l f i :
  existence_checks n fastq_dir name = false ->
  exists e st',
    warn_missing
      {| log := l; files := f; loc_input_df := i;
         loc_out_df := Some (paths_frame n fastq_dir name) |}
    = (Raise e, st')
    /\ files st' = f
    /\ ((exists p, path_exists env p = Raise e)
        \/ (exists p, open_read env p = Some e /\ is_IOError e = false)).
Proof.
  unfold existence_checks. intros H. unfold warn_missing.
  erewrite bind_ok by reflexivity.
  erewrite bind_ok by reflexivity.
  destruct (checks_return
              (derived_paths n fastq_dir "_R2_001.fastq.gz" name)) eqn:H2.
  2:{ destruct (missing_of_derived_raises _ _ _ _
                  {| log := (l ++ [record INFO
                       "Checking that all paths to fastq files exist..." []])%list;
                     files := f; loc_input_df := i;
                     loc_out_df := Some (paths_frame n fastq_dir name) |} H2)
        as (e & p & Hp & Hraise).
      exists e. eexists.
      erewrite bind_raise by (exact Hraise).
      repeat split. left. now exists p. }
  erewrite bind_ok
    by (apply (missing_of_derived n fastq_dir "_R2_001.fastq.gz" name);
        exact H2).
  erewrite bind_ok by reflexivity.
  destruct (checks_return
              (derived_paths n fastq_dir "_R1_001.fastq.gz" name)) eqn:H1.
  2:{ destruct (missing_of_derived_raises _ _ _ _
                  {| log := (l ++ [record INFO
                       "Checking that all paths to fastq files exist..." []])%list;
                     files := f; loc_input_df := i;
                     loc_out_df := Some (paths_frame n fastq_dir name) |} H1)
        as (e & p & Hp & Hraise).
      exists e. eexists.
      erewrite bind_raise by (exact Hraise).
      repeat split. left. now exists p. }
  erewrite bind_ok
    by (apply (missing_of_derived n fastq_dir "_R1_001.fastq.gz" name);
        exact H1).
  simpl in H.
  destruct (for_each_warn_raises _
              (l ++ [record INFO
                       "Checking that all paths to fastq files exist..." []])%list
              f i (Some (paths_frame n fastq_dir name)) H)
    as (e & p & st' & _ & Hopen & He & Hraise & Hf & _).
  exists e, st'. split; [exact Hraise|]. split; [exact Hf|].
  right. now exists p.
Qed.

Lemma insert_parameters_paths n fastq_dir name qwc qws marq l f i o :
  o = Some (paths_frame n fastq_dir name) ->
  insert_parameters qwc qws marq
    {| log := l; files := f; loc_input_df := i; loc_out_df := o |} =
  (Ok tt,
   {| log := l; files := f; loc_input_df := i;
      loc_out_df :=
        Some (parameters_frame n fastq_dir name qwc qws marq) |}).
Proof. intros ->. reflexivity. Qed.

Lemma check_fastq_dir_spec fastq_dir st :
  check_fastq_dir fastq_dir st =
  (match path_exists env fastq_dir with
   | Ok true => Ok tt
   | Ok false => Raise AssertionError
   | Raise e => Raise e
   end, st).
Proof.
  unfold check_fastq_dir, bind, lift, assert_.
  now destruct (path_exists env fastq_dir) as [[|]|].
Qed.

Lemma add_sequences_cases n fastq_dir name qwc qws marq mfa pws df l f :
  let st := {| log := l; files := f; loc_input_df := Some df;
               loc_out_df :=
                 Some (parameters_frame n fastq_dir name qwc qws marq) |} in
  match select df "Ref_sequence", select df "Guide_Sequence" with
  | [ref], [guide] =>
      add_sequences_and_plot_parameters mfa pws st =
      (Ok tt,
       {| log := l; files := f; loc_input_df := Some df;
          loc_out_df :=
            Some (final_frame n fastq_dir name (snd ref) (snd guide)
                              qwc qws marq mfa pws) |})
  | _, _ =>
      exists e st',
        add_sequences_and_plot_parameters mfa pws st = (Raise e, st')
        /\ files st' = f
  end.
Proof.
  intros st. subst st.
  unfold add_sequences_and_plot_parameters, bind, get_input_df, lift,
    getitem_frame, update_out_df, get_out_df, set_out_df, setitem_frame.
  simpl.
  destruct (select df "Ref_sequence") as [|ref [|? ?]] eqn:Href; simpl;
    try (eexists _, _; split; reflexivity).
  destruct (select df "Guide_Sequence") as [|guide [|? ?]] eqn:Hguide; simpl;
    try (eexists _, _; split; reflexivity).
  reflexivity.
Qed.

Lemma check_output_nulls_spec out l f i :
  check_output_nulls
    {| log := l; files := f; loc_input_df := i; loc_out_df := Some out |} =
  ((if null_free out then Ok tt else Raise AssertionError),
   {| log := l; files := f; loc_input_df := i; loc_out_df := Some out |}).
Proof.
  unfold check_output_nulls, bind, get_out_df, assert_, null_free. simpl.
  now destruct (Nat.eqb _ 0).
Qed.

Lemma from_write_output_spec input_file outfile out l f i :
  from_write_output input_file outfile
    {| log := l; files := f; loc_input_df := i; loc_out_df := Some out |} =
  match open_write env outfile with
  | None =>
      (Raise (SystemExit 0),
       {| log := (l ++ [record INFO
                   "Successfully converted %s to %s for CRISPRessoBatch!"
                   [LStr input_file; LStr outfile]])%list;
          files := (outfile, stored outfile (csv_text (csv_table out))) :: f;
          loc_input_df := i; loc_out_df := Some out |})
  | Some e =>
      if reraised e
      then (Raise e,
            {| log := l; files := f; loc_input_df := i;
               loc_out_df := Some out |})
      else
        (Raise (SystemExit 0),
         {| log := ((l ++ [{| levelname := ERROR;
                              msg := "Failed to write file";
                              args := []; exc_info := true |}])
                    ++ [record INFO
                   "Successfully converted %s to %s for CRISPRessoBatch!"
                   [LStr input_file; LStr outfile]])%list;
            files := f; loc_input_df := i; loc_out_df := Some out |})
  end.
Proof.
  unfold from_write_output, write_output, finish, bind, try_except,
    get_out_df, to_csv.
  simpl.
  destruct (open_write env outfile) as [e|]; [|reflexivity].
  unfold raise. now destruct (reraised e).
Qed.


(** *** Following a run *)

Section Run.

Variables (input_file : string) (qwc qws marq : Z) (fastq_dir : string)
          (mfa : spec_float) (pws : Z) (outfile : string).
Variables (l : list LogRecord) (f : list (string * content))
          (i o : option DataFrame).

Lemma run_unreadable e :
  read_excel env input_file = Raise e ->
  make_text_input input_file qwc qws marq fastq_dir mfa pws outfile
    {| log := l; files := f; loc_input_df := i; loc_out_df := o |} =
  (Raise (if reraised e then e else AttributeError),
   {| log := (l ++ [record INFO "Making input.txt file" []])%list;
      files := f; loc_input_df := i; loc_out_df := o |}).
Proof.
  intros H. unfold make_text_input.
  erewrite bind_ok by reflexivity.
  erewrite bind_raise by (apply open_input_raise; exact H).
  reflexivity.
Qed.

Lemma run_nulls df :
  read_excel env input_file = Ok df ->
  null_free df = false ->
  make_text_input input_file qwc qws marq fastq_dir mfa pws outfile
    {| log := l; files := f; loc_input_df := i; loc_out_df := o |} =
  (Raise AssertionError,
   {| log := log_nulls_checked l input_file; files := f; loc_input_df := Some df;
      loc_out_df := o |}).
Proof.
  intros H Hn. unfold make_text_input.
  erewrite bind_ok by reflexivity.
  erewrite bind_ok by (apply open_input_ok; exact H).
  erewrite bind_raise
    by (rewrite check_input_nulls_spec, Hn; reflexivity).
  reflexivity.
Qed.

Lemma run_to_derive_paths df :
  read_excel env input_file = Ok df ->
  null_free df = true ->
  make_text_input input_file qwc qws marq fastq_dir mfa pws outfile
    {| log := l; files := f; loc_input_df := i; loc_out_df := o |} =
  from_derive_paths input_file qwc qws marq fastq_dir mfa pws outfile
    {| log := log_nulls_checked l input_file; files := f; loc_input_df := Some df;
       loc_out_df := o |}.
Proof.
  intros H Hn. unfold make_text_input.
  erewrite bind_ok by reflexivity.
  erewrite bind_ok by (apply open_input_ok; exact H).
  erewrite bind_ok
    by (rewrite check_input_nulls_spec, Hn; reflexivity).
  reflexivity.
Qed.

Lemma run_to_check_fastq_dir df name :
  read_excel env input_file = Ok df ->
  null_free df = true ->
  select df "NGS_sample_name" = [name] ->
  forallb (fun v => is_str v || isnull v)
          (map (snd name) (seq 0 (nrows df))) = true ->
  existence_checks (nrows df) fastq_dir (snd name) = true ->
  make_text_input input_file qwc qws marq fastq_dir mfa pws outfile
    {| log := l; files := f; loc_input_df := i; loc_out_df := o |} =
  from_check_fastq_dir input_file fastq_dir mfa pws outfile
    {| log := log_paths_checked l input_file fastq_dir (nrows df) (snd name); files := f;
       loc_input_df := Some df;
       loc_out_df :=
         Some (parameters_frame (nrows df) fastq_dir (snd name)
                                qwc qws marq) |}.
Proof.
  intros H Hn Hsel Hstr Hchecks.
  rewrite (run_to_derive_paths df H Hn). unfold from_derive_paths.
  erewrite bind_ok
    by (rewrite derive_paths_spec, Hsel, Hstr; reflexivity).
  erewrite bind_ok by (apply warn_missing_paths; exact Hchecks).
  erewrite bind_ok by (apply insert_parameters_paths; reflexivity).
  reflexivity.
Qed.

(** A check of line 104 or an [open] of line 108 that raises ends the run
    there. *)
Lemma run_checks_raise df name :
  read_excel env input_file = Ok df ->
  null_free df = true ->
  select df "NGS_sample_name" = [name] ->
  forallb (fun v => is_str v || isnull v)
          (map (snd name) (seq 0 (nrows df))) = true ->
  existence_checks (nrows df) fastq_dir (snd name) = false ->
  exists e st',
    make_text_input input_file qwc qws marq fastq_dir mfa pws outfile
      {| log := l; files := f; loc_input_df := i; loc_out_df := o |}
    = (Raise e, st')
    /\ files st' = f
    /\ ((exists p, path_exists env p = Raise e)
        \/ (exists p, open_read env p = Some e /\ is_IOError e = false)).
Proof.
  intros H Hn Hsel Hstr Hchecks.
  rewrite (run_to_derive_paths df H Hn). unfold from_derive_paths.
  erewrite bind_ok
    by (rewrite derive_paths_spec, Hsel, Hstr; reflexivity).
  destruct (warn_missing_raises (nrows df) fastq_dir (snd name)
              (log_nulls_checked l input_file) f (Some df) Hchecks)
    as (e & st' & Hraise & Hf & Hwhy).
  exists e, st'. split; [|now split].
  apply bind_raise. exact Hraise.
Qed.

Lemma run_to_write_output df name ref guide :
  read_excel env input_file = Ok df ->
  null_free df = true ->
  select df "NGS_sample_name" = [name] ->
  forallb (fun v => is_str v || isnull v)
          (map (snd name) (seq 0 (nrows df))) = true ->
  existence_checks (nrows df) fastq_dir (snd name) = true ->
  path_exists env fastq_dir = Ok true ->
  select df "Ref_sequence" = [ref] ->
  select df "Guide_Sequence" = [guide] ->
  null_free (final_frame (nrows df) fastq_dir (snd name) (snd ref)
                         (snd guide) qwc qws marq mfa pws) = true ->
  make_text_input input_file qwc qws marq fastq_dir mfa pws outfile
    {| log := l; files := f; loc_input_df := i; loc_out_df := o |} =
  from_write_output input_file outfile
    {| log := log_paths_checked l input_file fastq_dir (nrows df) (snd name); files := f;
       loc_input_df := Some df;
       loc_out_df :=
         Some (final_frame (nrows df) fastq_dir (snd name) (snd ref)
                           (snd guide) qwc qws marq mfa pws) |}.
Proof.
  intros H Hn Hsel Hstr Hchecks Hdir Href Hguide Hfinal.
  rewrite (run_to_check_fastq_dir df name H Hn Hsel Hstr Hchecks).
  unfold from_check_fastq_dir.
  erewrite bind_ok by (rewrite check_fastq_dir_spec, Hdir; reflexivity).
  pose proof (add_sequences_cases (nrows df) fastq_dir (snd name)
                qwc qws marq mfa pws df
                (log_paths_checked l input_file fastq_dir (nrows df) (snd name)) f) as Hadd.
  cbv zeta in Hadd. rewrite Href, Hguide in Hadd.
  erewrite bind_ok by exact Hadd.
  erewrite bind_ok
    by (rewrite check_output_nulls_spec, Hfinal; reflexivity).
  reflexivity.
Qed.

End Run.

Lemma run_written_inv
    input_file qwc qws marq fastq_dir mfa pws outfile l f i o r st' :
  make_text_input input_file qwc qws marq fastq_dir mfa pws outfile
    {| log := l; files := f; loc_input_df := i; loc_out_df := o |} = (r, st') ->
  files st' <> f ->
  exists df name ref guide,
    read_excel env input_file = Ok df
    /\ null_free df = true
    /\ select df "NGS_sample_name" = [name]
    /\ forallb (fun v => is_str v || isnull v)
               (map (snd name) (seq 0 (nrows df))) = true
    /\ existence_checks (nrows df) fastq_dir (snd name) = true
    /\ path_exists env fastq_dir = Ok true
    /\ select df "Ref_sequence" = [ref]
    /\ select df "Guide_Sequence" = [guide]
    /\ null_free (final_frame (nrows df) fastq_dir (snd name) (snd ref)
                              (snd guide) qwc qws marq mfa pws) = true
    /\ open_write env outfile = None.
Proof.
  intros H Hf.
  destruct (read_excel env input_file) as [df|e] eqn:Hread.
  2:{ rewrite (run_unreadable _ _ _ _ _ _ _ _ _ _ _ _ e Hread) in H.
      inversion H; subst. now elim Hf. }
  destruct (null_free df) eqn:Hn.
  2:{ rewrite (run_nulls _ _ _ _ _ _ _ _ _ _ _ _ df Hread Hn) in H.
      inversion H; subst. now elim Hf. }
  destruct (select df "NGS_sample_name") as [|name [|c' cs]] eqn:Hsel.
  1,3: rewrite (run_to_derive_paths _ _ _ _ _ _ _ _ _ _ _ _ df Hread Hn) in H;
       unfold from_derive_paths in H;
       erewrite bind_raise in H
         by (rewrite derive_paths_spec, Hsel; reflexivity);
       inversion H; subst; now elim Hf.
  destruct (forallb (fun v => is_str v || isnull v)
                    (map (snd name) (seq 0 (nrows df)))) eqn:Hstr.
  2:{ rewrite (run_to_derive_paths _ _ _ _ _ _ _ _ _ _ _ _ df Hread Hn) in H.
      unfold from_derive_paths in H.
      erewrite bind_raise in H
        by (rewrite derive_paths_spec, Hsel, Hstr; reflexivity).
      inversion H; subst. now elim Hf. }
  destruct (existence_checks (nrows df) fastq_dir (snd name)) eqn:Hchecks.
  2:{ destruct (run_checks_raise input_file qwc qws marq fastq_dir mfa pws
                  outfile l f i o df name Hread Hn Hsel Hstr Hchecks)
        as (e & st1 & Hraise & Hfiles & _).
      rewrite Hraise in H. inversion H; subst. now elim Hf. }
  rewrite (run_to_check_fastq_dir _ _ _ _ _ _ _ _ _ _ _ _ df name
             Hread Hn Hsel Hstr Hchecks) in H.
  unfold from_check_fastq_dir in H.
  destruct (path_exists env fastq_dir) as [[|]|e] eqn:Hdir.
  2,3: erewrite bind_raise in H
         by (rewrite check_fastq_dir_spec, Hdir; reflexivity);
       inversion H; subst; now elim Hf.
  erewrite bind_ok in H
    by (rewrite check_fastq_dir_spec, Hdir; reflexivity).
  pose proof (add_sequences_cases (nrows df) fastq_dir (snd name)
                qwc qws marq mfa pws df
                (log_paths_checked l input_file fastq_dir (nrows df)
                                   (snd name)) f) as Hadd.
  cbv zeta in Hadd.
  destruct (select df "Ref_sequence") as [|ref [|? ?]] eqn:Href;
    destruct (select df "Guide_Sequence") as [|guide [|? ?]] eqn:Hguide;
    try (destruct Hadd as (e & st1 & Hadd & Hfiles);
         erewrite bind_raise in H by exact Hadd;
         inversion H; subst; now elim Hf).
  erewrite bind_ok in H by exact Hadd.
  destruct (null_free (final_frame (nrows df) fastq_dir (snd name) (snd ref)
                         (snd guide) qwc qws marq mfa pws)) eqn:Hfinal.
  2:{ erewrite bind_raise in H
        by (rewrite check_output_nulls_spec, Hfinal; reflexivity).
      inversion H; subst. now elim Hf. }
  erewrite bind_ok in H
    by (rewrite check_output_nulls_spec, Hfinal; reflexivity).
  fold (from_write_output input_file outfile) in H.
  rewrite from_write_output_spec in H.
  destruct (open_write env outfile) as [e|] eqn:Hw.
  { destruct (reraised e); inversion H; subst; now elim Hf. }
  exists df, name, ref, guide. repeat split; auto.
Qed.


(** *** Missing values *)

Lemma filter_nil_iff {A} (P : A -> bool) (xs : list A) :
  filter P xs = [] <-> forall x, In x xs -> P x = false.
Proof.
  induction xs as [|x xs IH]; simpl.
  - split; [intros _ ? []|reflexivity].
  - destruct (P x) eqn:Hx; split.
    + discriminate.
    + intros H. specialize (H x (or_introl eq_refl)). congruence.
    + intros H y [<-|Hy]; [assumption|]. now apply IH.
    + intros H. apply IH. intros y Hy. apply H. now right.
Qed.

Lemma null_free_iff (df : DataFrame) :
  null_free df = true <->
  forall i c, i < nrows df -> In c (columns df) -> isnull (snd c i) = false.
Proof.
  unfold null_free, null_rows, index.
  rewrite Nat.eqb_eq, length_zero_iff_nil, filter_nil_iff.
  split.
  - intros H i c Hi Hc.
    specialize (H i). rewrite in_seq in H.
    specialize (H ltac:(lia)).
    destruct (isnull (snd c i)) eqn:Hnull; [|reflexivity].
    rewrite <- H. symmetry. apply existsb_exists. now exists c.
  - intros H i Hi. apply in_seq in Hi.
    apply not_true_iff_false. intros Hex.
    apply existsb_exists in Hex as (c & Hc & Hnull).
    cbv beta in Hnull.
    assert (Hc' : isnull (snd c i) = false) by (apply H; [lia|assumption]).
    congruence.
Qed.

Lemma select_one_In (df : DataFrame) (key : string) (c : string * Column) :
  select df key = [c] -> In c (columns df).
Proof.
  unfold select. intros H.
  assert (Hin : In c (filter (fun c => String.eqb (fst c) key) (columns df)))
    by (rewrite H; now left).
  now apply filter_In in Hin.
Qed.

Lemma forallb_column (P : value -> bool) (col : Column) (n i : nat) :
  forallb P (map col (seq 0 n)) = true -> i < n -> P (col i) = true.
Proof.
  intros H Hi. rewrite forallb_forall in H. apply H.
  apply in_map. apply in_seq. lia.
Qed.


(** In a frame without missing values, a sample name that passed
    [series_add_str] is a string. *)
Lemma name_is_string (df : DataFrame) (name : string * Column) (i : nat) :
  null_free df = true ->
  select df "NGS_sample_name" = [name] ->
  forallb (fun v => is_str v || isnull v)
          (map (snd name) (seq 0 (nrows df))) = true ->
  i < nrows df ->
  exists s, snd name i = VStr s.
Proof.
  intros Hn Hsel Hstr Hi.
  pose proof (forallb_column _ _ _ _ Hstr Hi) as H. simpl in H.
  rewrite (proj1 (null_free_iff df) Hn i name Hi (select_one_In _ _ _ Hsel))
    in H.
  rewrite orb_false_r in H.
  destruct (snd name i); try discriminate. now eexists.
Qed.

Lemma path_column_string fastq_dir suffix (name : Column) i s :
  name i = VStr s ->
  path_column fastq_dir suffix name i = VStr (fastq_dir ++ s ++ suffix).
Proof. unfold path_column. now intros ->. Qed.

(** The final null check passes on a table built from an accepted input,
    unless the float parameter is NaN and there is a row to hold it. *)
Lemma final_frame_null_free df name ref guide fastq_dir qwc qws marq mfa pws :
  null_free df = true ->
  select df "NGS_sample_name" = [name] ->
  select df "Ref_sequence" = [ref] ->
  select df "Guide_Sequence" = [guide] ->
  nrows df = 0 \/ isnull (VFloat mfa) = false ->
  null_free (final_frame (nrows df) fastq_dir (snd name) (snd ref)
                         (snd guide) qwc qws marq mfa pws) = true.
Proof.
  intros Hn Hname Href Hguide Hmfa.
  pose proof (proj1 (null_free_iff df) Hn) as Hcells.
  apply null_free_iff. simpl. intros i c Hi Hc.
  destruct Hmfa as [H0|Hmfa]; [lia|].
  repeat (destruct Hc as [<-|Hc]); try reflexivity; try exact Hmfa;
    try (simpl; apply Hcells; [assumption|eapply select_one_In; eassumption]).
  destruct Hc.
Qed.

(** *** The whole process *)

Lemma run_eq (cl : CommandLine) r st :
  make_text_input
    (ns_input_file (parse_args cl))
    (ns_quantification_window_center (parse_args cl))
    (ns_quantification_window_size (parse_args cl))
    (ns_min_average_read_quality (parse_args cl))
    (ns_fastq_dir (parse_args cl))
    (ns_min_frequency_alleles_around_cut_to_plot (parse_args cl))
    (ns_plot_window_size (parse_args cl))
    (ns_outfile (parse_args cl))
    (started_state cl) = (r, st) ->
  run cl = (outcome_of r, st).
Proof.
  intros H. unfold run, main.
  erewrite bind_ok by reflexivity.
  erewrite bind_ok by reflexivity.
  unfold started_state in H. simpl in *. now rewrite H.
Qed.

Lemma names_accepted_inv (df : DataFrame) :
  names_accepted df = true ->
  null_free df = true
  /\ exists name,
       select df "NGS_sample_name" = [name]
       /\ forallb is_str (map (snd name) (seq 0 (nrows df))) = true.
Proof.
  unfold names_accepted, sole. intros H.
  apply andb_true_iff in H as [Hn H]. split; [assumption|].
  destruct (select df "NGS_sample_name") as [|name [|? ?]];
    try discriminate.
  now exists name.
Qed.

Lemma has_sole_inv (df : DataFrame) (key : string) :
  has_sole df key = true -> exists c, select df key = [c].
Proof.
  unfold has_sole, sole.
  destruct (select df key) as [|c [|? ?]]; try discriminate. now exists c.
Qed.

Lemma input_accepted_inv (df : DataFrame) :
  input_accepted df = true ->
  names_accepted df = true
  /\ (exists ref, select df "Ref_sequence" = [ref])
  /\ (exists guide, select df "Guide_Sequence" = [guide]).
Proof.
  unfold input_accepted. intros H.
  apply andb_true_iff in H as [H Hg]. apply andb_true_iff in H as [H Hr].
  auto using has_sole_inv.
Qed.

Lemma run_unreadable_input (cl : CommandLine) e :
  read_excel env (cl_input_file cl) = Raise e ->
  reraised e = false ->
  run cl =
  (Uncaught AttributeError,
   {| log := (log (started_state cl)
              ++ [record INFO "Making input.txt file" []])%list;
      files := []; loc_input_df := None; loc_out_df := None |}).
Proof.
  intros H He.
  erewrite run_eq by (apply run_unreadable; exact H).
  now rewrite He.
Qed.

Lemma run_null_input (cl : CommandLine) df :
  read_excel env (cl_input_file cl) = Ok df ->
  null_free df = false ->
  run cl =
  (Uncaught AssertionError,
   {| log := log_nulls_checked (log (started_state cl)) (cl_input_file cl);
      files := []; loc_input_df := Some df; loc_out_df := None |}).
Proof.
  intros H Hn.
  erewrite run_eq by (apply run_nulls; eassumption). reflexivity.
Qed.


Lemma run_reaches_write (cl : CommandLine) df name ref guide :
  read_excel env (cl_input_file cl) = Ok df ->
  null_free df = true ->
  select df "NGS_sample_name" = [name] ->
  forallb (fun v => is_str v || isnull v)
          (map (snd name) (seq 0 (nrows df))) = true ->
  existence_checks (nrows df) (cl_fastq_dir cl) (snd name) = true ->
  path_exists env (cl_fastq_dir cl) = Ok true ->
  select df "Ref_sequence" = [ref] ->
  select df "Guide_Sequence" = [guide] ->
  null_free (table_of cl (nrows df) (snd name) (snd ref) (snd guide)) = true ->
  run cl =
  match open_write env (cl_outfile cl) with
  | None =>
      (Exited 0,
       {| log := (log_paths_checked (log (started_state cl))
                    (cl_input_file cl) (cl_fastq_dir cl) (nrows df) (snd name)
                  ++ [converted_record cl])%list;
          files :=
            [(cl_outfile cl,
              stored (cl_outfile cl)
                (csv_text (csv_table (table_of cl (nrows df) (snd name)
                                               (snd ref) (snd guide)))))];
          loc_input_df := Some df;
          loc_out_df :=
            Some (table_of cl (nrows df) (snd name) (snd ref) (snd guide)) |})
  | Some e =>
      if reraised e
      then
        (outcome_of (Raise e),
         {| log := log_paths_checked (log (started_state cl))
                     (cl_input_file cl) (cl_fastq_dir cl) (nrows df)
                     (snd name);
            files := []; loc_input_df := Some df;
            loc_out_df :=
              Some (table_of cl (nrows df) (snd name) (snd ref)
                             (snd guide)) |})
      else
        (Exited 0,
         {| log := ((log_paths_checked (log (started_state cl))
                       (cl_input_file cl) (cl_fastq_dir cl) (nrows df)
                       (snd name)
                     ++ [write_failed_record]) ++ [converted_record cl])%list;
            files := []; loc_input_df := Some df;
            loc_out_df :=
              Some (table_of cl (nrows df) (snd name) (snd ref)
                             (snd guide)) |})
  end.
Proof.
  intros H Hn Hsel Hstr Hchecks Hdir Href Hguide Hfinal.
  pose proof (run_to_write_output
                (ns_input_file (parse_args cl))
                (ns_quantification_window_center (parse_args cl))
                (ns_quantification_window_size (parse_args cl))
                (ns_min_average_read_quality (parse_args cl))
                (ns_fastq_dir (parse_args cl))
                (ns_min_frequency_alleles_around_cut_to_plot (parse_args cl))
                (ns_plot_window_size (parse_args cl))
                (ns_outfile (parse_args cl))
                (log (started_state cl)) [] None None
                df name ref guide H Hn Hsel Hstr Hchecks Hdir Href Hguide
                Hfinal)
    as Hrun.
  rewrite from_write_output_spec in Hrun. simpl in Hrun.
  destruct (open_write env (cl_outfile cl)) as [e|].
  - destruct (reraised e); now erewrite run_eq by exact Hrun.
  - now erewrite run_eq by exact Hrun.
Qed.

(** A run that wrote a file went through every check. *)
Lemma run_written (cl : CommandLine) :
  files (snd (run cl)) <> [] ->
  exists df name ref guide,
    read_excel env (cl_input_file cl) = Ok df
    /\ null_free df = true
    /\ select df "NGS_sample_name" = [name]
    /\ forallb (fun v => is_str v || isnull v)
               (map (snd name) (seq 0 (nrows df))) = true
    /\ existence_checks (nrows df) (cl_fastq_dir cl) (snd name) = true
    /\ path_exists env (cl_fastq_dir cl) = Ok true
    /\ select df "Ref_sequence" = [ref]
    /\ select df "Guide_Sequence" = [guide]
    /\ null_free (table_of cl (nrows df) (snd name) (snd ref) (snd guide))
       = true
    /\ run cl =
       (Exited 0,
        {| log := (log_paths_checked (log (started_state cl))
                     (cl_input_file cl) (cl_fastq_dir cl) (nrows df)
                     (snd name)
                   ++ [converted_record cl])%list;
           files :=
             [(cl_outfile cl,
               stored (cl_outfile cl)
                 (csv_text (csv_table (table_of cl (nrows df) (snd name)
                                                (snd ref) (snd guide)))))];
           loc_input_df := Some df;
           loc_out_df :=
             Some (table_of cl (nrows df) (snd name) (snd ref)
                            (snd guide)) |}).
Proof.
  intros Hf.
  destruct (make_text_input
              (ns_input_file (parse_args cl))
              (ns_quantification_window_center (parse_args cl))
              (ns_quantification_window_size (parse_args cl))
              (ns_min_average_read_quality (parse_args cl))
              (ns_fastq_dir (parse_args cl))
              (ns_min_frequency_alleles_around_cut_to_plot (parse_args cl))
              (ns_plot_window_size (parse_args cl))
              (ns_outfile (parse_args cl))
              (started_state cl)) as [r st] eqn:Hrun.
  rewrite (run_eq cl r st Hrun) in Hf. simpl in Hf.
  destruct (run_written_inv _ _ _ _ _ _ _ _ _ _ _ _ _ _ Hrun Hf)
    as (df & name & ref & guide & H & Hn & Hsel & Hstr & Hchecks & Hdir
        & Href & Hguide & Hfinal & Hw).
  exists df, name, ref, guide. simpl in *.
  repeat (split; [assumption|]).
  rewrite (run_reaches_write cl df name ref guide) by assumption.
  now rewrite Hw.
Qed.

(** *** Reading the written table *)

Lemma csv_table_table_of cl n (name ref guide : Column) :
  csv_table (table_of cl n name ref guide) =
  output_header
  :: map (fun i =>
            [ csv_cell (name i);
              csv_cell (VInt (ns_quantification_window_center (parse_args cl)));
              csv_cell (VInt (ns_quantification_window_size (parse_args cl)));
              csv_cell (VInt (ns_min_average_read_quality (parse_args cl)));
              csv_cell (path_column (cl_fastq_dir cl) "_R1_001.fastq.gz"
                                    name i);
              csv_cell (path_column (cl_fastq_dir cl) "_R2_001.fastq.gz"
                                    name i);
              csv_cell (ref i);
              csv_cell (guide i);
              csv_cell (VFloat (ns_min_frequency_alleles_around_cut_to_plot
                                  (parse_args cl)));
              csv_cell (VInt (ns_plot_window_size (parse_args cl))) ])
         (seq 0 n).
Proof. reflexivity. Qed.

Lemma cell_sole (df : DataFrame) (key : string) (c : string * Column) i :
  select df key = [c] -> i < nrows df -> cell df key i = Some (snd c i).
Proof.
  intros Hsel Hi. unfold cell, sole. rewrite Hsel.
  now rewrite (proj2 (Nat.ltb_lt _ _) Hi).
Qed.


Lemma string_app_nil_r (s : string) : s ++ EmptyString = s.
Proof. induction s as [|c s IH]; simpl; [reflexivity|now rewrite IH]. Qed.

Lemma string_app_assoc (s1 s2 s3 : string) :
  (s1 ++ s2) ++ s3 = s1 ++ s2 ++ s3.
Proof. induction s1 as [|c s1 IH]; simpl; [reflexivity|now rewrite IH]. Qed.

Lemma concat_nil_cons (x : string) (xs : list string) :
  String.concat EmptyString (x :: xs) = x ++ String.concat EmptyString xs.
Proof.
  destruct xs as [|y ys]; simpl; [now rewrite string_app_nil_r|reflexivity].
Qed.

Lemma csv_text_tsv_text (table : list (list string)) :
  csv_text table = tsv_text table.
Proof. reflexivity. Qed.

Lemma csv_quote_labels : map csv_quote output_header = output_header.
Proof.
  unfold output_header. cbn [map].
  now rewrite !csv_quote_plain by reflexivity.
Qed.

Lemma tsv_text_header (rows : list (list string)) :
  tsv_text (output_header :: rows) = header_line ++ tsv_text rows.
Proof.
  unfold tsv_text. cbn [map]. rewrite concat_nil_cons, csv_quote_labels.
  reflexivity.
Qed.

Lemma nth_error_map_seq {A} (g : nat -> A) (n i : nat) :
  i < n -> nth_error (map g (seq 0 n)) i = Some (g i).
Proof.
  intros Hi. rewrite nth_error_map.
  assert (H : nth_error (seq 0 n) i = Some i).
  { rewrite (nth_error_nth' _ 0) by (rewrite length_seq; exact Hi).
    now rewrite seq_nth. }
  now rewrite H.
Qed.

Lemma csv_cell_not_null (v : value) : isnull v = false -> csv_cell v = str v.
Proof. unfold csv_cell. now intros ->. Qed.

(** *** Missing values in the input *)

Lemma null_cell_not_null_free (df : DataFrame) (c : string * Column) i :
  In c (columns df) -> i < nrows df -> isnull (snd c i) = true ->
  null_free df = false.
Proof.
  intros Hc Hi Hnull. apply not_true_iff_false. intros Hn.
  rewrite (proj1 (null_free_iff df) Hn i c Hi Hc) in Hnull. discriminate.
Qed.

Lemma null_cell_aborts (cl : CommandLine) (df : DataFrame)
    (c : string * Column) i :
  read_excel env (cl_input_file cl) = Ok df ->
  In c (columns df) -> i < nrows df -> isnull (snd c i) = true ->
  fst (run cl) = Uncaught AssertionError
  /\ files (snd (run cl)) = []
  /\ loc_out_df (snd (run cl)) = None.
Proof.
  intros Hread Hc Hi Hnull.
  rewrite (run_null_input cl df Hread
             (null_cell_not_null_free df c i Hc Hi Hnull)).
  now repeat split.
Qed.

(** *** Warnings *)

Lemma existence_checks_complete_inv (df : DataFrame) fastq_dir name :
  existence_checks_complete df fastq_dir = true ->
  select df "NGS_sample_name" = [name] ->
  existence_checks (nrows df) fastq_dir (snd name) = true.
Proof.
  unfold existence_checks_complete, sole. intros H Hsel.
  now rewrite Hsel in H.
Qed.







Lemma run_happy (cl : CommandLine) (df : DataFrame) name ref guide :
  read_excel env (cl_input_file cl) = Ok df ->
  null_free df = true ->
  select df "NGS_sample_name" = [name] ->
  forallb is_str (map (snd name) (seq 0 (nrows df))) = true ->
  existence_checks (nrows df) (cl_fastq_dir cl) (snd name) = true ->
  path_exists env (cl_fastq_dir cl) = Ok true ->
  select df "Ref_sequence" = [ref] ->
  select df "Guide_Sequence" = [guide] ->
  nrows df = 0
  \/ isnull (VFloat (ns_min_frequency_alleles_around_cut_to_plot
                       (parse_args cl))) = false ->
  open_write env (cl_outfile cl) = None ->
  fst (run cl) = Exited 0
  /\ log (snd (run cl)) =
     (log_paths_checked (log (started_state cl)) (cl_input_file cl)
        (cl_fastq_dir cl) (nrows df) (snd name)
      ++ [converted_record cl])%list
  /\ files (snd (run cl)) =
     [(cl_outfile cl,
       stored (cl_outfile cl)
         (csv_text (csv_table (table_of cl (nrows df) (snd name) (snd ref)
                                        (snd guide)))))].
Proof.
  intros Hread Hn Hsel Hstr Hchecks Hdir Href Hguide Hmfa Hw.
  apply forallb_is_str_or_null in Hstr.
  rewrite (run_reaches_write cl df name ref guide Hread Hn Hsel Hstr
             Hchecks Hdir Href Hguide)
    by (apply final_frame_null_free; auto).
  rewrite Hw. repeat split.
Qed.

Lemma run_write_failed (cl : CommandLine) (df : DataFrame) name ref guide e :
  read_excel env (cl_input_file cl) = Ok df ->
  null_free df = true ->
  select df "NGS_sample_name" = [name] ->
  forallb is_str (map (snd name) (seq 0 (nrows df))) = true ->
  existence_checks (nrows df) (cl_fastq_dir cl) (snd name) = true ->
  path_exists env (cl_fastq_dir cl) = Ok true ->
  select df "Ref_sequence" = [ref] ->
  select df "Guide_Sequence" = [guide] ->
  nrows df = 0
  \/ isnull (VFloat (ns_min_frequency_alleles_around_cut_to_plot
                       (parse_args cl))) = false ->
  open_write env (cl_outfile cl) = Some e ->
  reraised e = false ->
  fst (run cl) = Exited 0
  /\ log (snd (run cl)) =
     ((log_paths_checked (log (started_state cl)) (cl_input_file cl)
         (cl_fastq_dir cl) (nrows df) (snd name)
       ++ [write_failed_record]) ++ [converted_record cl])%list
  /\ files (snd (run cl)) = [].
Proof.
  intros Hread Hn Hsel Hstr Hchecks Hdir Href Hguide Hmfa Hw He.
  apply forallb_is_str_or_null in Hstr.
  rewrite (run_reaches_write cl df name ref guide Hread Hn Hsel Hstr
             Hchecks Hdir Href Hguide)
    by (apply final_frame_null_free; auto).
  rewrite Hw, He. repeat split.
Qed.

(** *** Runs that stop between the first null check and the write *)

Lemma select_nil_iff (df : DataFrame) (key : string) :
  select df key = [] <-> ~ In key (labels df).
Proof.
  unfold select, labels. rewrite filter_nil_iff. split.
  - intros H Hin. apply in_map_iff in Hin as (c & <- & Hc).
    specialize (H c Hc). cbv beta in H.
    rewrite String.eqb_refl in H. discriminate.
  - intros H c Hc. apply String.eqb_neq. intros <-.
    apply H. now apply in_map.
Qed.

Lemma column_not_forallb (P : value -> bool) (col : Column) (n i : nat) :
  i < n -> P (col i) = false -> forallb P (map col (seq 0 n)) = false.
Proof.
  intros Hi HP. apply not_true_iff_false. intros H.
  rewrite (forallb_column P col n i H Hi) in HP. discriminate.
Qed.


Lemma run_derive_paths_raises (cl : CommandLine) (df : DataFrame) e st1 :
  read_excel env (cl_input_file cl) = Ok df ->
  null_free df = true ->
  derive_paths (cl_fastq_dir cl)
    {| log := log_nulls_checked (log (started_state cl)) (cl_input_file cl);
       files := []; loc_input_df := Some df; loc_out_df := None |}
  = (Raise e, st1) ->
  run cl = (outcome_of (Raise e), st1).
Proof.
  intros Hread Hn Hraise. apply run_eq. unfold started_state.
  erewrite run_to_derive_paths by eassumption.
  unfold from_derive_paths. now erewrite bind_raise by exact Hraise.
Qed.

Lemma run_add_sequences_raises (cl : CommandLine) (df : DataFrame)
    name e st1 :
  read_excel env (cl_input_file cl) = Ok df ->
  null_free df = true ->
  select df "NGS_sample_name" = [name] ->
  forallb (fun v => is_str v || isnull v)
          (map (snd name) (seq 0 (nrows df))) = true ->
  existence_checks (nrows df) (cl_fastq_dir cl) (snd name) = true ->
  path_exists env (cl_fastq_dir cl) = Ok true ->
  add_sequences_and_plot_parameters
    (ns_min_frequency_alleles_around_cut_to_plot (parse_args cl))
    (ns_plot_window_size (parse_args cl))
    {| log := log_paths_checked (log (started_state cl)) (cl_input_file cl)
                (cl_fastq_dir cl) (nrows df) (snd name);
       files := []; loc_input_df := Some df;
       loc_out_df :=
         Some (parameters_frame (nrows df) (cl_fastq_dir cl) (snd name)
                 (ns_quantification_window_center (parse_args cl))
                 (ns_quantification_window_size (parse_args cl))
                 (ns_min_average_read_quality (parse_args cl))) |}
  = (Raise e, st1) ->
  run cl = (outcome_of (Raise e), st1).
Proof.
  intros Hread Hn Hsel Hstr Hchecks Hdir Hraise. apply run_eq. unfold started_state.
  erewrite run_to_check_fastq_dir by eassumption.
  unfold from_check_fastq_dir.
  erewrite bind_ok
    by (rewrite check_fastq_dir_spec; simpl; rewrite Hdir; reflexivity).
  now erewrite bind_raise by exact Hraise.
Qed.

Lemma run_final_check_fails (cl : CommandLine) (df : DataFrame)
    name ref guide :
  read_excel env (cl_input_file cl) = Ok df ->
  null_free df = true ->
  select df "NGS_sample_name" = [name] ->
  forallb (fun v => is_str v || isnull v)
          (map (snd name) (seq 0 (nrows df))) = true ->
  existence_checks (nrows df) (cl_fastq_dir cl) (snd name) = true ->
  path_exists env (cl_fastq_dir cl) = Ok true ->
  select df "Ref_sequence" = [ref] ->
  select df "Guide_Sequence" = [guide] ->
  null_free (table_of cl (nrows df) (snd name) (snd ref) (snd guide))
  = false ->
  run cl =
  (Uncaught AssertionError,
   {| log := log_paths_checked (log (started_state cl)) (cl_input_file cl)
               (cl_fastq_dir cl) (nrows df) (snd name);
      files := []; loc_input_df := Some df;
      loc_out_df :=
        Some (table_of cl (nrows df) (snd name) (snd ref) (snd guide)) |}).
Proof.
  intros Hread Hn Hsel Hstr Hchecks Hdir Href Hguide Hfinal.
  erewrite run_eq; cycle 1.
  - unfold started_state.
    erewrite run_to_check_fastq_dir by eassumption.
    unfold from_check_fastq_dir.
    erewrite bind_ok
      by (rewrite check_fastq_dir_spec; simpl; rewrite Hdir; reflexivity).
    pose proof (add_sequences_cases (nrows df) (cl_fastq_dir cl) (snd name)
                  (ns_quantification_window_center (parse_args cl))
                  (ns_quantification_window_size (parse_args cl))
                  (ns_min_average_read_quality (parse_args cl))
                  (ns_min_frequency_alleles_around_cut_to_plot
                     (parse_args cl))
                  (ns_plot_window_size (parse_args cl)) df
                  (log_paths_checked (log (started_state cl))
                     (cl_input_file cl) (cl_fastq_dir cl) (nrows df)
                     (snd name)) []) as Hadd.
    cbv zeta in Hadd. rewrite Href, Hguide in Hadd.
    erewrite bind_ok by exact Hadd.
    erewrite bind_raise
      by (rewrite check_output_nulls_spec; unfold table_of in Hfinal;
          simpl in Hfinal |- *; rewrite Hfinal; reflexivity).
    reflexivity.
  - reflexivity.
Qed.

Lemma add_sequences_ref_absent n fastq_dir name qwc qws marq mfa pws df l f :
  select df "Ref_sequence" = [] ->
  add_sequences_and_plot_parameters mfa pws
    {| log := l; files := f; loc_input_df := Some df;
       loc_out_df := Some (parameters_frame n fastq_dir name qwc qws marq) |}
  = (Raise (KeyError "Ref_sequence"),
     {| log := l; files := f; loc_input_df := Some df;
        loc_out_df :=
          Some (parameters_frame n fastq_dir name qwc qws marq) |}).
Proof.
  intros Href.
  unfold add_sequences_and_plot_parameters, bind, get_input_df, lift,
    getitem_frame.
  simpl. now rewrite Href.
Qed.

Lemma add_sequences_guide_absent
    n fastq_dir name qwc qws marq mfa pws df l f ref :
  select df "Ref_sequence" = [ref] ->
  select df "Guide_Sequence" = [] ->
  exists st',
    add_sequences_and_plot_parameters mfa pws
      {| log := l; files := f; loc_input_df := Some df;
         loc_out_df :=
           Some (parameters_frame n fastq_dir name qwc qws marq) |}
    = (Raise (KeyError "Guide_Sequence"), st')
    /\ log st' = l /\ files st' = f.
Proof.
  intros Href Hguide.
  unfold add_sequences_and_plot_parameters, bind, get_input_df, lift,
    getitem_frame, update_out_df, get_out_df, set_out_df, setitem_frame.
  simpl. rewrite Href. simpl. rewrite Hguide.
  eexists. repeat split.
Qed.

(** *** What is logged *)

Lemma appends_only_state {A} (Q : LogRecord -> Prop) (m : M A) :
  (forall st, log (snd (m st)) = log st) -> appends_only Q m.
Proof.
  intros H st. exists []. rewrite H, app_nil_r. auto.
Qed.

Lemma appends_only_emit (Q : LogRecord -> Prop) (r : LogRecord) :
  Q r -> appends_only Q (emit r).
Proof. intros H st. exists [r]. simpl. auto. Qed.

Lemma appends_only_bind {A B} (Q : LogRecord -> Prop)
    (m : M A) (k : A -> M B) :
  appends_only Q m -> (forall a, appends_only Q (k a)) ->
  appends_only Q (bind m k).
Proof.
  intros Hm Hk st. unfold bind.
  destruct (Hm st) as (added & Hlog & HQ).
  destruct (m st) as [[a|e] st1]; simpl in Hlog.
  - destruct (Hk a st1) as (added' & Hlog' & HQ').
    exists (added ++ added')%list.
    rewrite Hlog', Hlog, app_assoc. split; [reflexivity|].
    apply Forall_app. now split.
  - now exists added.
Qed.

Lemma appends_only_try_except {A} (Q : LogRecord -> Prop)
    (body : M A) (handler : exn -> M A) :
  appends_only Q body -> (forall e, appends_only Q (handler e)) ->
  appends_only Q (try_except body handler).
Proof.
  intros Hb Hh st. unfold try_except.
  destruct (Hb st) as (added & Hlog & HQ).
  destruct (body st) as [[a|e] st1]; simpl in Hlog.
  - now exists added.
  - destruct (Hh e st1) as (added' & Hlog' & HQ').
    exists (added ++ added')%list.
    rewrite Hlog', Hlog, app_assoc. split; [reflexivity|].
    apply Forall_app. now split.
Qed.

Lemma appends_only_for_each {A} (Q : LogRecord -> Prop)
    (xs : list A) (body : A -> M unit) :
  (forall x, appends_only Q (body x)) -> appends_only Q (for_each xs body).
Proof.
  intros H. induction xs as [|x xs IH]; simpl.
  - now apply appends_only_state.
  - apply appends_only_bind; auto.
Qed.

Lemma appends_only_missing_of (Q : LogRecord -> Prop) (xs : list value) :
  appends_only Q (missing_of xs).
Proof.
  induction xs as [|x xs IH]; simpl.
  - now apply appends_only_state.
  - destruct x; try now apply appends_only_state.
    apply appends_only_bind.
    + apply appends_only_state. intros st. unfold lift.
      now destruct (path_exists env _).
    + intros found. apply appends_only_bind; [assumption|].
      intros rest. now apply appends_only_state.
Qed.

(** Breaks a computation built from the script's primitives into them. *)
Ltac appends_only_steps :=
  repeat first
    [ apply appends_only_bind; [|intros ?]
    | apply appends_only_try_except; [|intros ?]
    | apply appends_only_for_each; intros ?
    | apply appends_only_missing_of
    | apply appends_only_emit
    | apply appends_only_state; intros st; reflexivity
    | match goal with
      | |- appends_only _ (if ?b then _ else _) => destruct b
      | |- appends_only _ (match ?o with Some _ => _ | None => _ end) =>
          destruct o
      | |- appends_only _ (assert_ ?b) => destruct b
      end ].

Lemma update_out_df_log (f : DataFrame -> result DataFrame) st :
  log (snd (update_out_df f st)) = log st.
Proof.
  unfold update_out_df, bind, get_out_df, lift, set_out_df.
  destruct (loc_out_df st) as [df|]; [|reflexivity].
  now destruct (f df).
Qed.

Lemma out_getitem_log (key : string) st :
  log (snd (out_getitem key st)) = log st.
Proof.
  unfold out_getitem, bind, get_out_df, lift.
  now destruct (loc_out_df st).
Qed.

Lemma get_input_df_log st : log (snd (get_input_df st)) = log st.
Proof. unfold get_input_df. now destruct (loc_input_df st). Qed.

Lemma get_out_df_log st : log (snd (get_out_df st)) = log st.
Proof. unfold get_out_df. now destruct (loc_out_df st). Qed.

Ltac appends_only_auto :=
  appends_only_steps;
  try (apply appends_only_state;
       first [ apply update_out_df_log | apply out_getitem_log
             | apply get_input_df_log | apply get_out_df_log ]).


Lemma main_logs_expected_records (cl : CommandLine) :
  appends_only expected_record (main cl).
Proof.
  unfold main, make_text_input, open_input, check_input_nulls, derive_paths,
    warn_missing, insert_parameters, check_fastq_dir,
    add_sequences_and_plot_parameters, check_output_nulls, write_output,
    finish, to_csv, open_r, out_setitem, logging_info, logging_warning,
    logging_error, write_file, set_input_df, raise, lift.
  appends_only_auto; split; simpl; try discriminate; auto.
Qed.


Lemma run_read_raises (cl : CommandLine) e :
  read_excel env (cl_input_file cl) = Raise e ->
  run cl =
  (outcome_of (Raise (if reraised e then e else AttributeError)),
   {| log := (log (started_state cl)
              ++ [record INFO "Making input.txt file" []])%list;
      files := []; loc_input_df := None; loc_out_df := None |}).
Proof.
  intros H. now erewrite run_eq by (apply run_unreadable; exact H).
Qed.

Lemma paths_checked_log_msgs l input_file fastq_dir n name r :
  In r (log_paths_checked l input_file fastq_dir n name) ->
  In r l
  \/ In (msg r) [ "Making input.txt file"; "Successfully opened %s";
                  "Checking for null values in input_excel.xlsx...";
                  "Checking that all paths to fastq files exist..." ]
  \/ exists p, msg r = "File does not exist: " ++ p.
Proof.
  unfold log_paths_checked, log_nulls_checked, log_opened.
  rewrite !in_app_iff. simpl. intros H.
  cases_In; subst; simpl; auto 10.
  match goal with
  | H : In _ (map _ _) |- _ => apply in_map_iff in H as (p & <- & _)
  end.
  right. right. now exists p.
Qed.


(** ** The claims *)

(** C1. In every run that writes its output, the columns [fastq_r1] and
    [fastq_r2] of the table written hold, for every row of the input, the
    fastq directory as given on the command line, then the row's
    [NGS_sample_name], then ["_R1_001.fastq.gz"] and ["_R2_001.fastq.gz"]
    respectively, with nothing in between. *)
Theorem fastq_columns_concatenate (cl : CommandLine) (df : DataFrame) :
  read_excel env (cl_input_file cl) = Ok df ->
  files (snd (run cl)) <> [] ->
  exists out,
    loc_out_df (snd (run cl)) = Some out
    /\ files (snd (run cl)) =
       [(cl_outfile cl, stored (cl_outfile cl) (csv_text (csv_table out)))]
    /\ nrows out = nrows df
    /\ forall i, i < nrows df ->
       exists name,
         cell df "NGS_sample_name" i = Some (VStr name)
         /\ cell out "fastq_r1" i =
            Some (VStr (cl_fastq_dir cl ++ name ++ "_R1_001.fastq.gz"))
         /\ cell out "fastq_r2" i =
            Some (VStr (cl_fastq_dir cl ++ name ++ "_R2_001.fastq.gz")).
Proof.
  intros Hread Hf.
  destruct (run_written cl Hf)
    as (df' & name & ref & guide & H & Hn & Hsel & Hstr & _ & _ & _ & _ & _
        & Hrun).
  rewrite Hread in H. injection H as <-. rewrite Hrun. simpl.
  eexists. repeat split.
  intros i Hi.
  destruct (name_is_string df name i Hn Hsel Hstr Hi) as [s Hs].
  exists s. rewrite (cell_sole df _ name i Hsel Hi), Hs.
  repeat split; eval_cell Hi; f_equal; now apply path_column_string.
Qed.

(** C3. In every run that writes its output, every row of the table written
    holds, in each of its five constant columns, the value given for it on
    the command line, and where none was given the default: -3, 1, 10, 0.2
    and 20. *)
Theorem constant_columns_hold_parameters (cl : CommandLine) :
  files (snd (run cl)) <> [] ->
  exists out,
    loc_out_df (snd (run cl)) = Some out
    /\ files (snd (run cl)) =
       [(cl_outfile cl, stored (cl_outfile cl) (csv_text (csv_table out)))]
    /\ forall i, i < nrows out ->
       cell out "quantification_window_center" i =
       Some (VInt match cl_quantification_window_center cl with
                  | Some given => given
                  | None => (-3)%Z
                  end)
       /\ cell out "quantification_window_size" i =
          Some (VInt match cl_quantification_window_size cl with
                     | Some given => given
                     | None => 1%Z
                     end)
       /\ cell out "min_average_read_quality" i =
          Some (VInt match cl_min_average_read_quality cl with
                     | Some given => given
                     | None => 10%Z
                     end)
       /\ cell out "min_frequency_alleles_around_cut_to_plot" i =
          Some (VFloat match cl_min_frequency_alleles_around_cut_to_plot cl
                       with
                       | Some given => given
                       | None => S754_finite false 7205759403792794 (-55)
                       end)
       /\ cell out "plot_window_size" i =
          Some (VInt match cl_plot_window_size cl with
                     | Some given => given
                     | None => 20%Z
                     end).
Proof.
  intros Hf.
  destruct (run_written cl Hf)
    as (df & name & ref & guide & _ & _ & _ & _ & _ & _ & _ & _ & _ & Hrun).
  rewrite Hrun. simpl.
  eexists. split; [reflexivity|]. split; [reflexivity|].
  intros i Hi. simpl in Hi.
  repeat split; eval_cell Hi; reflexivity.
Qed.

(** C4. When a run on a spreadsheet of N rows writes its output, the input
    had no missing value, the run exits with status 0, and the text written
    is the header line followed by exactly N records of ten fields each,
    every record ending in the line terminator. *)
Theorem output_has_one_record_per_row (cl : CommandLine) (df : DataFrame) :
  read_excel env (cl_input_file cl) = Ok df ->
  files (snd (run cl)) <> [] ->
  null_free df = true
  /\ fst (run cl) = Exited 0
  /\ exists rows,
       files (snd (run cl)) =
       [(cl_outfile cl,
         stored (cl_outfile cl) (header_line ++ tsv_text rows))]
       /\ List.length rows = nrows df
       /\ Forall (fun fields => List.length fields = 10) rows.
Proof.
  intros Hread Hf.
  destruct (run_written cl Hf)
    as (df' & name & ref & guide & H & Hn & _ & _ & _ & _ & _ & _ & _ & Hrun).
  rewrite Hread in H. injection H as <-. rewrite Hrun.
  cbn [fst snd files].
  repeat split; [assumption|].
  rewrite csv_text_tsv_text, csv_table_table_of, tsv_text_header.
  eexists. split; [reflexivity|].
  split; [now rewrite length_map, length_seq|].
  apply Forall_forall. intros fields Hin.
  apply in_map_iff in Hin as (i & <- & _). reflexivity.
Qed.

(** C5. The text a run writes is tab-separated, with a header and without
    an index column: its first line is the ten labels in the order of the
    specification with a tab between neighbours, and the record of each row
    of the input holds, in that order and each in the encoding of the csv
    module, the sample name, the three integer parameters in decimal, the
    two fastq paths, the two sequences, the float parameter and the last
    integer parameter, with a tab between neighbours and the line terminator
    at the end. *)
Theorem output_is_tab_separated_in_order (cl : CommandLine) (df : DataFrame) :
  read_excel env (cl_input_file cl) = Ok df ->
  files (snd (run cl)) <> [] ->
  exists rows,
    files (snd (run cl)) =
    [(cl_outfile cl,
      (if infers_compression env (cl_outfile cl) then Compressed else Plain)
        (String.concat (String "009"%char EmptyString)
           [ "name"; "quantification_window_center";
             "quantification_window_size"; "min_average_read_quality";
             "fastq_r1"; "fastq_r2"; "amplicon_seq"; "guide_seq";
             "min_frequency_alleles_around_cut_to_plot"; "plot_window_size" ]
         ++ linesep env
         ++ String.concat EmptyString
              (map (fun fields =>
                      String.concat (String "009"%char EmptyString)
                                    (map csv_quote fields)
                      ++ linesep env)
                   rows)))]
    /\ List.length rows = nrows df
    /\ forall i, i < nrows df ->
       exists name amplicon guide,
         cell df "NGS_sample_name" i = Some (VStr name)
         /\ cell df "Ref_sequence" i = Some amplicon
         /\ cell df "Guide_Sequence" i = Some guide
         /\ nth_error rows i =
            Some [ name;
                   NilZero.string_of_int
                     (Z.to_int match cl_quantification_window_center cl with
                               | Some given => given
                               | None => (-3)%Z
                               end);
                   NilZero.string_of_int
                     (Z.to_int match cl_quantification_window_size cl with
                               | Some given => given
                               | None => 1%Z
                               end);
                   NilZero.string_of_int
                     (Z.to_int match cl_min_average_read_quality cl with
                               | Some given => given
                               | None => 10%Z
                               end);
                   cl_fastq_dir cl ++ name ++ "_R1_001.fastq.gz";
                   cl_fastq_dir cl ++ name ++ "_R2_001.fastq.gz";
                   match amplicon with
                   | VStr text => text
                   | VInt z => NilZero.string_of_int (Z.to_int z)
                   | VFloat x => float_repr x
                   | VNull => EmptyString
                   end;
                   match guide with
                   | VStr text => text
                   | VInt z => NilZero.string_of_int (Z.to_int z)
                   | VFloat x => float_repr x
                   | VNull => EmptyString
                   end;
                   float_repr
                     match cl_min_frequency_alleles_around_cut_to_plot cl
                     with
                     | Some given => given
                     | None => S754_finite false 7205759403792794 (-55)
                     end;
                   NilZero.string_of_int
                     (Z.to_int match cl_plot_window_size cl with
                               | Some given => given
                               | None => 20%Z
                               end) ].
Proof.
  intros Hread Hf.
  destruct (run_written cl Hf)
    as (df' & name & ref & guide & H & Hn & Hsel & Hstr & _ & _ & Href
        & Hguide & Hfinal & Hrun).
  rewrite Hread in H. injection H as <-. rewrite Hrun.
  cbn [snd files].
  rewrite csv_text_tsv_text, csv_table_table_of, tsv_text_header.
  eexists. split.
  { unfold stored, header_line, tsv_text, record_line.
    rewrite string_app_assoc.
    destruct (infers_compression env (cl_outfile cl)); reflexivity. }
  split; [now rewrite length_map, length_seq|].
  intros i Hi.
  destruct (name_is_string df name i Hn Hsel Hstr Hi) as [s Hs].
  exists s, (snd ref i), (snd guide i).
  rewrite (cell_sole df _ name i Hsel Hi), Hs.
  rewrite (cell_sole df _ ref i Href Hi), (cell_sole df _ guide i Hguide Hi).
  repeat (split; [reflexivity|]).
  rewrite (nth_error_map_seq _ _ _ Hi).
  pose proof (proj1 (null_free_iff df) Hn) as Hcells.
  pose proof (proj1 (null_free_iff _) Hfinal i) as Hout.
  rewrite !(path_column_string _ _ _ _ _ Hs), Hs.
  assert (Hr : isnull (snd ref i) = false)
    by (apply Hcells; [assumption|eapply select_one_In; eassumption]).
  assert (Hg : isnull (snd guide i) = false)
    by (apply Hcells; [assumption|eapply select_one_In; eassumption]).
  rewrite (csv_cell_not_null (snd ref i)) by exact Hr.
  rewrite (csv_cell_not_null (snd guide i)) by exact Hg.
  rewrite (csv_cell_not_null (VFloat _))
    by (apply (Hout ("min_frequency_alleles_around_cut_to_plot",
                     fun _ => VFloat _) Hi); simpl; tauto).
  f_equal.
  destruct (snd ref i); try discriminate;
    destruct (snd guide i); try discriminate; reflexivity.
Qed.

(** C2. Whenever the spreadsheet read holds a missing value in one of the
    three columns the script uses, the run ends in an [AssertionError] and
    no file is written. *)
Theorem null_in_required_column_aborts (cl : CommandLine) (df : DataFrame)
    (c : string * Column) (i : nat) :
  read_excel env (cl_input_file cl) = Ok df ->
  In c (columns df) ->
  In (fst c) ["NGS_sample_name"; "Ref_sequence"; "Guide_Sequence"] ->
  i < nrows df ->
  isnull (snd c i) = true ->
  fst (run cl) = Uncaught AssertionError /\ files (snd (run cl)) = [].
Proof.
  intros Hread Hc _ Hi Hnull.
  destruct (null_cell_aborts cl df c i Hread Hc Hi Hnull) as (Ho & Hf & _).
  now split.
Qed.

(** C10. The first null check looks at every column: a missing value under
    any label, also one the script never reads, ends the run in an
    [AssertionError] before [out_df] exists, and no file is written. *)
Theorem null_in_any_column_aborts (cl : CommandLine) (df : DataFrame)
    (c : string * Column) (i : nat) :
  read_excel env (cl_input_file cl) = Ok df ->
  In c (columns df) ->
  i < nrows df ->
  isnull (snd c i) = true ->
  fst (run cl) = Uncaught AssertionError
  /\ files (snd (run cl)) = []
  /\ loc_out_df (snd (run cl)) = None
  /\ ~ In (record INFO "Checking that all paths to fastq files exist..." [])
          (log (snd (run cl))).
Proof.
  intros Hread Hc Hi Hnull.
  rewrite (run_null_input cl df Hread
             (null_cell_not_null_free df c i Hc Hi Hnull)).
  repeat split. simpl. intros H. cases_In; discriminate.
Qed.

(** Whatever the input and however the run ends, no record is logged with
    the message of line 87, and a record of level [ERROR] is the one of the
    module prologue or the one of line 133. *)
Lemma run_logs_expected (cl : CommandLine) (r : LogRecord) :
  In r (log (snd (run cl))) ->
  msg r <> "Failed to open file"
  /\ (levelname r = ERROR ->
      r = record ERROR "ERROR message." []
      \/ r = {| levelname := ERROR; msg := "Failed to write file";
                args := []; exc_info := true |}).
Proof.
  unfold run.
  destruct (main_logs_expected_records cl initial_state)
    as (added & Hlog & Hadded).
  destruct (main cl initial_state) as [res st]. simpl in Hlog |- *.
  rewrite Hlog. intros Hr.
  destruct Hr as [<-|[<-|[<-|[<-|Hr]]]];
    try (split; [discriminate|]; intros; try discriminate; now left).
  rewrite Forall_forall in Hadded. destruct (Hadded r Hr) as [Hmsg Herr].
  split; [assumption|]. intros Hlevel. right. now apply Herr.
Qed.


(** C8. On the happy path (input accepted, existence checks come to their
    end, fastq directory present, final null check passed) the process
    exits with status 0 once the file is written; and when creating the
    file fails instead, the failure is logged at level [ERROR], no file is
    written, and the process still exits with status 0. *)
Theorem exit_status_zero_also_when_write_fails
    (cl : CommandLine) (df : DataFrame) :
  read_excel env (cl_input_file cl) = Ok df ->
  input_accepted df = true ->
  existence_checks_complete df (cl_fastq_dir cl) = true ->
  path_exists env (cl_fastq_dir cl) = Ok true ->
  nrows df = 0
  \/ isnull (VFloat (ns_min_frequency_alleles_around_cut_to_plot
                       (parse_args cl))) = false ->
  (open_write env (cl_outfile cl) = None ->
   fst (run cl) = Exited 0
   /\ exists written, files (snd (run cl)) = [(cl_outfile cl, written)])
  /\ (forall e,
        open_write env (cl_outfile cl) = Some e ->
        reraised e = false ->
        fst (run cl) = Exited 0
        /\ files (snd (run cl)) = []
        /\ In {| levelname := ERROR; msg := "Failed to write file";
                 args := []; exc_info := true |}
              (log (snd (run cl)))).
Proof.
  intros Hread Hacc Hchecks Hdir Hmfa.
  apply input_accepted_inv in Hacc as (Hnames & [ref Href] & [guide Hguide]).
  apply names_accepted_inv in Hnames as (Hn & name & Hsel & Hstr).
  pose proof (existence_checks_complete_inv df _ name Hchecks Hsel) as Hex.
  split.
  - intros Hw.
    destruct (run_happy cl df name ref guide Hread Hn Hsel Hstr Hex Hdir
                Href Hguide Hmfa Hw) as (Ho & _ & Hfiles).
    split; [assumption|]. eexists. exact Hfiles.
  - intros e Hw He.
    destruct (run_write_failed cl df name ref guide e Hread Hn Hsel Hstr Hex
                Hdir Href Hguide Hmfa Hw He) as (Ho & Hlog & Hfiles).
    repeat split; try assumption.
    rewrite Hlog. apply in_or_app. left. apply in_or_app. right. now left.
Qed.


(** ** Further properties of the script *)

(** X1.  Whatever the input, nothing is written unless
    [Path(fastq_dir).exists()] returns [True]: the assertion of line 119
    comes before the write. *)
Lemma missing_dir_never_writes (cl : CommandLine) :
  path_exists env (cl_fastq_dir cl) <> Ok true ->
  files (snd (run cl)) = [].
Proof.
  intros Hdir.
  destruct (files (snd (run cl))) as [|file rest] eqn:Hfiles;
    [reflexivity|].
  assert (Hf : files (snd (run cl)) <> []) by (rewrite Hfiles; discriminate).
  destruct (run_written cl Hf)
    as (df & name & ref & guide & _ & _ & _ & _ & _ & Hexists & _).
  contradiction.
Qed.

(** X3.  A run writes nothing, or it writes exactly one file, at the output
    path of the command line, and then it exits with status 0. *)
Theorem writes_only_the_output_file (cl : CommandLine) :
  files (snd (run cl)) = []
  \/ (fst (run cl) = Exited 0
      /\ exists written, files (snd (run cl)) = [(cl_outfile cl, written)]).
Proof.
  destruct (files (snd (run cl))) as [|file rest] eqn:Hfiles;
    [now left|right].
  assert (Hf : files (snd (run cl)) <> []) by (rewrite Hfiles; discriminate).
  destruct (run_written cl Hf)
    as (df & name & ref & guide & _ & _ & _ & _ & _ & _ & _ & _ & _ & Hrun).
  rewrite Hrun in Hfiles |- *. simpl in Hfiles |- *.
  split; [reflexivity|]. rewrite <- Hfiles. now eexists.
Qed.

(** X4.  A sheet without missing values that has no column
    [NGS_sample_name] ends the run in a [KeyError] for that label, before
    [out_df] exists; nothing is written. *)
Theorem missing_name_column_raises_KeyError
    (cl : CommandLine) (df : DataFrame) :
  read_excel env (cl_input_file cl) = Ok df ->
  null_free df = true ->
  ~ In "NGS_sample_name" (labels df) ->
  fst (run cl) = Uncaught (KeyError "NGS_sample_name")
  /\ files (snd (run cl)) = []
  /\ loc_out_df (snd (run cl)) = None.
Proof.
  intros Hread Hn Habsent. apply select_nil_iff in Habsent.
  erewrite run_derive_paths_raises; try eassumption;
    [|rewrite derive_paths_spec, Habsent; reflexivity].
  now repeat split.
Qed.

(** X5.  When the sample names are accepted, the existence checks come to
    their end and the fastq directory exists, a sheet without the column
    [Ref_sequence], or with it but without the column [Guide_Sequence], ends
    the run in the [KeyError] of that label.  This happens after the
    existence check of the fastq files, and nothing is written. *)
Theorem missing_sequence_column_raises_KeyError
    (cl : CommandLine) (df : DataFrame) (key : string) :
  read_excel env (cl_input_file cl) = Ok df ->
  names_accepted df = true ->
  existence_checks_complete df (cl_fastq_dir cl) = true ->
  path_exists env (cl_fastq_dir cl) = Ok true ->
  key = "Ref_sequence"
  \/ (key = "Guide_Sequence" /\ has_sole df "Ref_sequence" = true) ->
  ~ In key (labels df) ->
  fst (run cl) = Uncaught (KeyError key)
  /\ files (snd (run cl)) = []
  /\ In (record INFO "Checking that all paths to fastq files exist..." [])
        (log (snd (run cl))).
Proof.
  intros Hread Hnames Hchecks Hdir Hkey Habsent.
  apply names_accepted_inv in Hnames as (Hn & name & Hsel & Hstr).
  pose proof (existence_checks_complete_inv df _ name Hchecks Hsel) as Hex.
  apply forallb_is_str_or_null in Hstr.
  apply select_nil_iff in Habsent.
  assert (Hlog : In (record INFO
                       "Checking that all paths to fastq files exist..." [])
                    (log_paths_checked (log (started_state cl))
                       (cl_input_file cl) (cl_fastq_dir cl) (nrows df)
                       (snd name))).
  { unfold log_paths_checked. apply in_or_app. left.
    apply in_or_app. right. now left. }
  destruct Hkey as [->|[-> Href]].
  - erewrite run_add_sequences_raises; try eassumption;
      [|apply add_sequences_ref_absent; assumption].
    now repeat split.
  - apply has_sole_inv in Href as [ref Href].
    destruct (add_sequences_guide_absent (nrows df) (cl_fastq_dir cl)
                (snd name)
                (ns_quantification_window_center (parse_args cl))
                (ns_quantification_window_size (parse_args cl))
                (ns_min_average_read_quality (parse_args cl))
                (ns_min_frequency_alleles_around_cut_to_plot (parse_args cl))
                (ns_plot_window_size (parse_args cl)) df
                (log_paths_checked (log (started_state cl))
                   (cl_input_file cl) (cl_fastq_dir cl) (nrows df)
                   (snd name)) [] ref Href Habsent)
      as (st' & Hraise & Hl & Hf).
    erewrite run_add_sequences_raises; try eassumption.
    simpl. rewrite Hl, Hf. now repeat split.
Qed.

(** X6.  A sheet without missing values whose column of sample names holds a
    cell that is not a string (a number, say) ends the run in a [TypeError]
    at line 96; nothing is written. *)
Theorem non_string_sample_name_raises_TypeError
    (cl : CommandLine) (df : DataFrame) (i : nat) (v : value) :
  read_excel env (cl_input_file cl) = Ok df ->
  null_free df = true ->
  cell df "NGS_sample_name" i = Some v ->
  is_str v = false ->
  fst (run cl) = Uncaught TypeError /\ files (snd (run cl)) = [].
Proof.
  intros Hread Hn Hcell Hv.
  unfold cell, sole in Hcell.
  destruct (select df "NGS_sample_name") as [|name [|? ?]] eqn:Hsel;
    try discriminate.
  destruct (Nat.ltb i (nrows df)) eqn:Hi; [|discriminate].
  apply Nat.ltb_lt in Hi. injection Hcell as Hcell.
  assert (Hnull : isnull (snd name i) = false)
    by (apply (proj1 (null_free_iff df) Hn);
        [assumption|eapply select_one_In; eassumption]).
  erewrite run_derive_paths_raises; try eassumption; cycle 1.
  - rewrite derive_paths_spec, Hsel.
    rewrite (column_not_forallb _ (snd name) (nrows df) i Hi)
      by (rewrite Hcell, Hv, <- Hcell, Hnull; reflexivity).
    reflexivity.
  - now split.
Qed.

(** X7.  With [--min_frequency_alleles_around_cut_to_plot nan] and a sheet
    of at least one row, a run that passed every earlier step fails the
    final null check of line 126: the table is complete, the run ends in an
    [AssertionError], and nothing is written. *)
Theorem nan_parameter_fails_final_check (cl : CommandLine) (df : DataFrame) :
  read_excel env (cl_input_file cl) = Ok df ->
  input_accepted df = true ->
  existence_checks_complete df (cl_fastq_dir cl) = true ->
  path_exists env (cl_fastq_dir cl) = Ok true ->
  cl_min_frequency_alleles_around_cut_to_plot cl = Some S754_nan ->
  0 < nrows df ->
  fst (run cl) = Uncaught AssertionError
  /\ files (snd (run cl)) = []
  /\ exists out,
       loc_out_df (snd (run cl)) = Some out /\ labels out = output_header.
Proof.
  intros Hread Hacc Hchecks Hdir Hnan Hrows.
  apply input_accepted_inv in Hacc as (Hnames & [ref Href] & [guide Hguide]).
  apply names_accepted_inv in Hnames as (Hn & name & Hsel & Hstr).
  pose proof (existence_checks_complete_inv df _ name Hchecks Hsel) as Hex.
  apply forallb_is_str_or_null in Hstr.
  assert (Hfinal : null_free (table_of cl (nrows df) (snd name) (snd ref)
                                      (snd guide)) = false).
  { apply (null_cell_not_null_free _
             ("min_frequency_alleles_around_cut_to_plot",
              fun _ => VFloat (ns_min_frequency_alleles_around_cut_to_plot
                                 (parse_args cl))) 0);
      [simpl; tauto|exact Hrows|simpl; now rewrite Hnan]. }
  rewrite (run_final_check_fails cl df name ref guide Hread Hn Hsel Hstr
             Hex Hdir Href Hguide Hfinal).
  repeat split. eexists. split; reflexivity.
Qed.

(** X8.  On a sheet that has the three columns and no row, a run with an
    existing fastq directory and a creatable output file exits with status 0
    and writes the header line alone, whatever the parameters: as it is, or
    compressed when the name of the output file asks for it. *)
Theorem empty_sheet_writes_header_only (cl : CommandLine) (df : DataFrame) :
  read_excel env (cl_input_file cl) = Ok df ->
  nrows df = 0 ->
  has_sole df "NGS_sample_name" = true ->
  has_sole df "Ref_sequence" = true ->
  has_sole df "Guide_Sequence" = true ->
  path_exists env (cl_fastq_dir cl) = Ok true ->
  open_write env (cl_outfile cl) = None ->
  fst (run cl) = Exited 0
  /\ files (snd (run cl)) =
     [(cl_outfile cl,
       if infers_compression env (cl_outfile cl)
       then Compressed header_line
       else Plain header_line)].
Proof.
  intros Hread Hrows Hname Href Hguide Hdir Hw.
  apply has_sole_inv in Hname as [name Hname].
  apply has_sole_inv in Href as [ref Href].
  apply has_sole_inv in Hguide as [guide Hguide].
  assert (Hn : null_free df = true)
    by (apply null_free_iff; intros i c Hi; lia).
  assert (Hex : existence_checks (nrows df) (cl_fastq_dir cl) (snd name)
                = true)
    by (rewrite Hrows; reflexivity).
  destruct (run_happy cl df name ref guide Hread Hn Hname
              ltac:(rewrite Hrows; reflexivity) Hex Hdir Href Hguide
              (or_introl Hrows) Hw) as (Ho & _ & Hfiles).
  split; [assumption|].
  rewrite Hfiles, csv_text_tsv_text, csv_table_table_of, tsv_text_header,
    Hrows.
  unfold stored, tsv_text. cbn [seq map String.concat].
  now rewrite string_app_nil_r.
Qed.

(** *** What is logged *)

(** X9.  In every run, whatever its input and however it ends, no record is
    logged with the message of line 87, ['Failed to open file'], and a
    record of level [ERROR] is either the one of the module prologue or the
    ['Failed to write file'] of line 133. *)
Theorem logs_only_expected_records (cl : CommandLine) (r : LogRecord) :
  In r (log (snd (run cl))) ->
  msg r <> "Failed to open file"
  /\ (levelname r = ERROR ->
      r = record ERROR "ERROR message." []
      \/ r = {| levelname := ERROR; msg := "Failed to write file";
                args := []; exc_info := true |}).
Proof. exact (run_logs_expected cl r). Qed.


(** X11.  When creating the output file fails with an [Exception], the log
    ends with the error record followed by the record
    ['Successfully converted ...']: the success message of line 135 is
    logged although nothing was written. *)
Theorem failed_write_still_reports_success
    (cl : CommandLine) (df : DataFrame) (e : exn) :
  read_excel env (cl_input_file cl) = Ok df ->
  input_accepted df = true ->
  existence_checks_complete df (cl_fastq_dir cl) = true ->
  path_exists env (cl_fastq_dir cl) = Ok true ->
  nrows df = 0
  \/ isnull (VFloat (ns_min_frequency_alleles_around_cut_to_plot
                       (parse_args cl))) = false ->
  open_write env (cl_outfile cl) = Some e ->
  reraised e = false ->
  files (snd (run cl)) = []
  /\ exists before,
       log (snd (run cl)) =
       (before
        ++ [ {| levelname := ERROR; msg := "Failed to write file";
                args := []; exc_info := true |};
             record INFO
               "Successfully converted %s to %s for CRISPRessoBatch!"
               [LStr (cl_input_file cl); LStr (cl_outfile cl)] ])%list.
Proof.
  intros Hread Hacc Hchecks Hdir Hmfa Hw He.
  apply input_accepted_inv in Hacc as (Hnames & [ref Href] & [guide Hguide]).
  apply names_accepted_inv in Hnames as (Hn & name & Hsel & Hstr).
  pose proof (existence_checks_complete_inv df _ name Hchecks Hsel) as Hex.
  destruct (run_write_failed cl df name ref guide e Hread Hn Hsel Hstr Hex
              Hdir Href Hguide Hmfa Hw He) as (_ & Hlog & Hfiles).
  split; [assumption|]. eexists. rewrite Hlog, <- app_assoc. reflexivity.
Qed.

(** X12.  A [SystemExit] or [KeyboardInterrupt] raised while the sheet is
    read is re-raised as it is: the process ends with that exit status or
    that interrupt, not in the [AttributeError] of the other read failures;
    nothing is written and [input_df] stays unbound. *)
Theorem read_interrupt_is_reraised (cl : CommandLine) (e : exn) :
  read_excel env (cl_input_file cl) = Raise e ->
  reraised e = true ->
  fst (run cl) = outcome_of (Raise e)
  /\ fst (run cl) <> Uncaught AttributeError
  /\ files (snd (run cl)) = []
  /\ loc_input_df (snd (run cl)) = None.
Proof.
  intros Hread He. rewrite (run_read_raises cl e Hread), He.
  repeat split. destruct e; try discriminate.
Qed.

(** X13.  A [SystemExit] or [KeyboardInterrupt] raised while the output file
    is written is re-raised as it is: the process ends with it, nothing is
    written, and neither the error record of line 133 nor the success
    record of line 135 is logged. *)
Theorem write_interrupt_is_reraised
    (cl : CommandLine) (df : DataFrame) (e : exn) :
  read_excel env (cl_input_file cl) = Ok df ->
  input_accepted df = true ->
  existence_checks_complete df (cl_fastq_dir cl) = true ->
  path_exists env (cl_fastq_dir cl) = Ok true ->
  nrows df = 0
  \/ isnull (VFloat (ns_min_frequency_alleles_around_cut_to_plot
                       (parse_args cl))) = false ->
  open_write env (cl_outfile cl) = Some e ->
  reraised e = true ->
  fst (run cl) = outcome_of (Raise e)
  /\ files (snd (run cl)) = []
  /\ forall r, In r (log (snd (run cl))) ->
       msg r <> "Failed to write file"
       /\ msg r <> "Successfully converted %s to %s for CRISPRessoBatch!".
Proof.
  intros Hread Hacc Hchecks Hdir Hmfa Hw He.
  apply input_accepted_inv in Hacc as (Hnames & [ref Href] & [guide Hguide]).
  apply names_accepted_inv in Hnames as (Hn & name & Hsel & Hstr).
  pose proof (existence_checks_complete_inv df _ name Hchecks Hsel) as Hex.
  apply forallb_is_str_or_null in Hstr.
  rewrite (run_reaches_write cl df name ref guide Hread Hn Hsel Hstr Hex
             Hdir Href Hguide)
    by (apply final_frame_null_free; auto).
  rewrite Hw, He. unfold fst, snd, log, files.
  split; [reflexivity|]. split; [reflexivity|].
  intros r Hr. apply paths_checked_log_msgs in Hr as [Hr|[Hr|[p Hr]]].
  - simpl in Hr. cases_In; subst r; simpl; split; discriminate.
  - simpl in Hr. cases_In;
      match goal with H : _ = msg r |- _ => rewrite <- H end;
      split; discriminate.
  - rewrite Hr. simpl. split; discriminate.
Qed.

(** *** How a run can end *)





(** *** The table written *)

(** X15.  The table a run writes has no missing value in any of its cells:
    the final null check of line 126 stands between a table with a missing
    value and the file. *)
Theorem written_table_has_no_missing_value (cl : CommandLine) :
  files (snd (run cl)) <> [] ->
  exists out,
    loc_out_df (snd (run cl)) = Some out
    /\ files (snd (run cl)) =
       [(cl_outfile cl, stored (cl_outfile cl) (csv_text (csv_table out)))]
    /\ labels out = output_header
    /\ forall i c, i < nrows out -> In c (columns out) ->
                   isnull (snd c i) = false.
Proof.
  intros Hf.
  destruct (run_written cl Hf)
    as (df & name & ref & guide & _ & _ & _ & _ & _ & _ & _ & _ & Hfinal
        & Hrun).
  rewrite Hrun. simpl.
  eexists. split; [reflexivity|]. split; [reflexivity|].
  split; [reflexivity|].
  exact (proj1 (null_free_iff _) Hfinal).
Qed.


End Script.

(** ** Two machines *)








(** ** The scenario of the specification *)

Lemma needs_quotes_plain (s : string) :
  plain s = true -> needs_quotes s = false.
Proof.
  induction s as [|c s IH]; simpl; [reflexivity|].
  intros H. apply andb_true_iff in H as [Hc Hs].
  rewrite (IH Hs), orb_false_r. unfold plain_char in Hc.
  apply negb_true_iff in Hc. apply orb_false_iff in Hc as [Hc _].
  exact Hc.
Qed.

(** The sample encoding writes a plain field as it is. *)
Lemma sample_csv_quote_plain (s : string) :
  plain s = true -> sample_csv_quote s = s.
Proof.
  intros H. unfold sample_csv_quote. now rewrite (needs_quotes_plain s H).
Qed.

(** [float_0_2] is a normal binary64 number within half a unit in the last
    place of 1/5. *)
Lemma float_0_2_nearest :
  exists m e,
    float_0_2 = S754_finite false m e
    /\ (2 ^ 52 <= Z.pos m < 2 ^ 53)%Z
    /\ (2 * Z.abs (5 * Z.pos m - 2 ^ (- e)) <= 5)%Z.
Proof.
  exists 7205759403792794%positive, (-55)%Z.
  split; [reflexivity|]. vm_compute. intuition discriminate.
Qed.

(** Row [S1, ACGT, AC] with fastq directory ["/data/"] and the defaults:
    the two lines of the file, tabs between the fields and a line feed at
    the end of each. *)
Lemma scenario_output :
  files (snd (run sample_repr sample_csv_quote (sample_env sample_df true true) sample_cl)) =
  [ ("input.txt",
     Plain
       (String.concat (String "009"%char EmptyString)
          [ "name"; "quantification_window_center";
            "quantification_window_size"; "min_average_read_quality";
            "fastq_r1"; "fastq_r2"; "amplicon_seq"; "guide_seq";
            "min_frequency_alleles_around_cut_to_plot"; "plot_window_size" ]
        ++ String "010"%char EmptyString
        ++ String.concat (String "009"%char EmptyString)
             [ "S1"; "-3"; "1"; "10"; "/data/S1_R1_001.fastq.gz";
               "/data/S1_R2_001.fastq.gz"; "ACGT"; "AC"; "0.2"; "20" ]
        ++ String "010"%char EmptyString)) ].
Proof. vm_compute. reflexivity. Qed.

(** C7.  On an input file that cannot be read, the handler itself raises:
    the process ends in an uncaught [AttributeError] with [input_df]
    unbound, and the only record of level [ERROR] in the log is the one of
    the module prologue; nothing after the read step runs. *)
Theorem unreadable_input_raises_AttributeError :
  read_excel (sample_env sample_df true true) (cl_input_file sample_cl_absent)
  = Raise OSError
  /\ fst (run sample_repr sample_csv_quote (sample_env sample_df true true)
              sample_cl_absent)
     = Uncaught AttributeError
  /\ loc_input_df
       (snd (run sample_repr sample_csv_quote
                 (sample_env sample_df true true) sample_cl_absent)) = None
  /\ files
       (snd (run sample_repr sample_csv_quote
                 (sample_env sample_df true true) sample_cl_absent)) = []
  /\ (forall r,
        In r (log (snd (run sample_repr sample_csv_quote
                            (sample_env sample_df true true)
                            sample_cl_absent))) ->
        levelname r = ERROR -> msg r = "ERROR message.")
  /\ ~ In (record INFO "Checking for null values in input_excel.xlsx..." [])
          (log (snd (run sample_repr sample_csv_quote
                         (sample_env sample_df true true)
                         sample_cl_absent))).
Proof.
  split; [reflexivity|].
  rewrite (run_unreadable_input sample_repr sample_csv_quote _ _ OSError)
    by reflexivity.
  repeat split.
  - simpl. intros r H Hr. cases_In; subst; try discriminate; reflexivity.
  - simpl. intros H. cases_In; discriminate.
Qed.

(** ** Inputs on which C6 and C9 fail as stated *)



(** ** The theorems at the sample inputs *)

Lemma fastq_columns_concatenate_witness :
  read_excel (sample_env sample_df true true) (cl_input_file sample_cl) = Ok sample_df
  /\ files (snd (run sample_repr sample_csv_quote (sample_env sample_df true true) sample_cl)) <> []
  /\ exists out,
       loc_out_df (snd (run sample_repr sample_csv_quote (sample_env sample_df true true) sample_cl)) = Some out
       /\ files (snd (run sample_repr sample_csv_quote (sample_env sample_df true true) sample_cl)) =
          [("input.txt",
            stored (sample_env sample_df true true) "input.txt"
              (csv_text sample_csv_quote (sample_env sample_df true true) (csv_table sample_repr out)))]
       /\ nrows out = 1
       /\ forall i, i < 1 ->
          exists name,
            cell sample_df "NGS_sample_name" i = Some (VStr name)
            /\ cell out "fastq_r1" i =
               Some (VStr ("/data/" ++ name ++ "_R1_001.fastq.gz"))
            /\ cell out "fastq_r2" i =
               Some (VStr ("/data/" ++ name ++ "_R2_001.fastq.gz")).
Proof.
  split; [reflexivity|]. split; [vm_compute; discriminate|].
  apply (fastq_columns_concatenate sample_repr sample_csv_quote (sample_env sample_df true true)
           sample_cl sample_df);
    [reflexivity|vm_compute; discriminate].
Defined.

Lemma null_in_required_column_aborts_witness :
  read_excel (sample_env sample_df_no_guide true true)
    (cl_input_file sample_cl) = Ok sample_df_no_guide
  /\ In ("Guide_Sequence", column_of [VNull]) (columns sample_df_no_guide)
  /\ In (fst ("Guide_Sequence", column_of [VNull]))
        ["NGS_sample_name"; "Ref_sequence"; "Guide_Sequence"]
  /\ 0 < nrows sample_df_no_guide
  /\ isnull (snd ("Guide_Sequence", column_of [VNull]) 0) = true
  /\ fst (run sample_repr sample_csv_quote (sample_env sample_df_no_guide true true) sample_cl)
     = Uncaught AssertionError
  /\ files (snd (run sample_repr sample_csv_quote (sample_env sample_df_no_guide true true)
                   sample_cl)) = [].
Proof.
  assert (Hc : In ("Guide_Sequence", column_of [VNull])
                  (columns sample_df_no_guide))
    by (simpl; auto).
  assert (Hk : In (fst ("Guide_Sequence", column_of [VNull]))
                  ["NGS_sample_name"; "Ref_sequence"; "Guide_Sequence"])
    by (simpl; auto).
  assert (Hi : 0 < nrows sample_df_no_guide) by (simpl; lia).
  repeat (split; [assumption || reflexivity|]).
  apply (null_in_required_column_aborts sample_repr sample_csv_quote
           (sample_env sample_df_no_guide true true) sample_cl
           sample_df_no_guide ("Guide_Sequence", column_of [VNull]) 0);
    assumption || reflexivity.
Defined.

Lemma constant_columns_hold_parameters_witness :
  cl_quantification_window_center sample_cl_options = None
  /\ cl_quantification_window_size sample_cl_options = Some 5%Z
  /\ cl_min_average_read_quality sample_cl_options = None
  /\ cl_min_frequency_alleles_around_cut_to_plot sample_cl_options = None
  /\ cl_plot_window_size sample_cl_options = Some 40%Z
  /\ files (snd (run sample_repr sample_csv_quote (sample_env sample_df true true) sample_cl_options)) <> []
  /\ exists out,
       loc_out_df (snd (run sample_repr sample_csv_quote (sample_env sample_df true true) sample_cl_options)) = Some out
       /\ files (snd (run sample_repr sample_csv_quote (sample_env sample_df true true) sample_cl_options)) =
          [("input.txt",
            stored (sample_env sample_df true true) "input.txt"
              (csv_text sample_csv_quote (sample_env sample_df true true) (csv_table sample_repr out)))]
       /\ forall i, i < nrows out ->
          cell out "quantification_window_center" i = Some (VInt (-3))
          /\ cell out "quantification_window_size" i = Some (VInt 5)
          /\ cell out "min_average_read_quality" i = Some (VInt 10)
          /\ cell out "min_frequency_alleles_around_cut_to_plot" i =
             Some (VFloat (S754_finite false 7205759403792794 (-55)))
          /\ cell out "plot_window_size" i = Some (VInt 40).
Proof.
  repeat (split; [reflexivity|]).
  split; [vm_compute; discriminate|].
  apply (constant_columns_hold_parameters sample_repr sample_csv_quote (sample_env sample_df true true)
           sample_cl_options).
  vm_compute; discriminate.
Defined.

Lemma output_has_one_record_per_row_witness :
  read_excel (sample_env sample_df true true) (cl_input_file sample_cl) = Ok sample_df
  /\ files (snd (run sample_repr sample_csv_quote (sample_env sample_df true true) sample_cl)) <> []
  /\ null_free sample_df = true
  /\ fst (run sample_repr sample_csv_quote (sample_env sample_df true true) sample_cl) = Exited 0
  /\ exists rows,
       files (snd (run sample_repr sample_csv_quote (sample_env sample_df true true) sample_cl)) =
       [("input.txt",
         stored (sample_env sample_df true true) "input.txt"
           (header_line (sample_env sample_df true true) ++ tsv_text sample_csv_quote (sample_env sample_df true true) rows))]
       /\ List.length rows = 1
       /\ Forall (fun fields => List.length fields = 10) rows.
Proof.
  split; [reflexivity|]. split; [vm_compute; discriminate|].
  apply (output_has_one_record_per_row sample_repr sample_csv_quote
           sample_csv_quote_plain (sample_env sample_df true true) sample_cl sample_df);
    [reflexivity|vm_compute; discriminate].
Defined.

Lemma output_is_tab_separated_in_order_witness :
  read_excel (sample_env sample_df true true) (cl_input_file sample_cl_options) = Ok sample_df
  /\ files (snd (run sample_repr sample_csv_quote (sample_env sample_df true true) sample_cl_options)) <> []
  /\ exists rows,
       files (snd (run sample_repr sample_csv_quote (sample_env sample_df true true) sample_cl_options)) =
       [("input.txt",
         Plain
           (String.concat (String "009"%char EmptyString)
              [ "name"; "quantification_window_center";
                "quantification_window_size"; "min_average_read_quality";
                "fastq_r1"; "fastq_r2"; "amplicon_seq"; "guide_seq";
                "min_frequency_alleles_around_cut_to_plot";
                "plot_window_size" ]
            ++ String "010"%char EmptyString
            ++ String.concat EmptyString
                 (map (fun fields =>
                         String.concat (String "009"%char EmptyString)
                                       (map sample_csv_quote fields)
                         ++ String "010"%char EmptyString)
                      rows)))]
       /\ List.length rows = 1
       /\ forall i, i < 1 ->
          exists name amplicon guide,
            cell sample_df "NGS_sample_name" i = Some (VStr name)
            /\ cell sample_df "Ref_sequence" i = Some amplicon
            /\ cell sample_df "Guide_Sequence" i = Some guide
            /\ nth_error rows i =
               Some [ name; "-3"; "5"; "10";
                      "/data/" ++ name ++ "_R1_001.fastq.gz";
                      "/data/" ++ name ++ "_R2_001.fastq.gz";
                      match amplicon with
                      | VStr text => text
                      | VInt z => NilZero.string_of_int (Z.to_int z)
                      | VFloat x => sample_repr x
                      | VNull => EmptyString
                      end;
                      match guide with
                      | VStr text => text
                      | VInt z => NilZero.string_of_int (Z.to_int z)
                      | VFloat x => sample_repr x
                      | VNull => EmptyString
                      end;
                      "0.2"; "40" ].
Proof.
  split; [reflexivity|]. split; [vm_compute; discriminate|].
  apply (output_is_tab_separated_in_order sample_repr sample_csv_quote
           sample_csv_quote_plain (sample_env sample_df true true) sample_cl_options sample_df);
    [reflexivity|vm_compute; discriminate].
Defined.

Lemma null_in_any_column_aborts_witness :
  read_excel (sample_env sample_df_empty_note true true)
    (cl_input_file sample_cl) = Ok sample_df_empty_note
  /\ In ("Notes", column_of [VNull]) (columns sample_df_empty_note)
  /\ 0 < nrows sample_df_empty_note
  /\ isnull (snd ("Notes", column_of [VNull]) 0) = true
  /\ fst (run sample_repr sample_csv_quote (sample_env sample_df_empty_note true true) sample_cl)
     = Uncaught AssertionError
  /\ files (snd (run sample_repr sample_csv_quote (sample_env sample_df_empty_note true true)
                   sample_cl)) = []
  /\ loc_out_df (snd (run sample_repr sample_csv_quote (sample_env sample_df_empty_note true true)
                        sample_cl)) = None
  /\ ~ In (record INFO "Checking that all paths to fastq files exist..." [])
          (log (snd (run sample_repr sample_csv_quote (sample_env sample_df_empty_note true true)
                       sample_cl))).
Proof.
  assert (Hc : In ("Notes", column_of [VNull])
                  (columns sample_df_empty_note))
    by (simpl; auto 10).
  assert (Hi : 0 < nrows sample_df_empty_note) by (simpl; lia).
  repeat (split; [assumption || reflexivity|]).
  apply (null_in_any_column_aborts sample_repr sample_csv_quote
           (sample_env sample_df_empty_note true true) sample_cl
           sample_df_empty_note ("Notes", column_of [VNull]) 0);
    assumption || reflexivity.
Defined.


Lemma exit_status_zero_also_when_write_fails_witness :
  read_excel (sample_env sample_df true false) (cl_input_file sample_cl) = Ok sample_df
  /\ input_accepted sample_df = true
  /\ existence_checks_complete sample_repr (sample_env sample_df true false) sample_df "/data/" = true
  /\ path_exists (sample_env sample_df true false) "/data/" = Ok true
  /\ (nrows sample_df = 0
      \/ isnull (VFloat (ns_min_frequency_alleles_around_cut_to_plot
                           (parse_args sample_cl))) = false)
  /\ open_write (sample_env sample_df true false) "input.txt" = Some OSError
  /\ reraised OSError = false
  /\ fst (run sample_repr sample_csv_quote (sample_env sample_df true false) sample_cl) = Exited 0
  /\ files (snd (run sample_repr sample_csv_quote (sample_env sample_df true false) sample_cl)) = []
  /\ In {| levelname := ERROR; msg := "Failed to write file";
           args := []; exc_info := true |}
        (log (snd (run sample_repr sample_csv_quote (sample_env sample_df true false) sample_cl))).
Proof.
  assert (Hread : read_excel (sample_env sample_df true false) (cl_input_file sample_cl) = Ok sample_df)
    by reflexivity.
  assert (Hacc : input_accepted sample_df = true) by reflexivity.
  assert (Hchecks : existence_checks_complete sample_repr (sample_env sample_df true false) sample_df
                      (cl_fastq_dir sample_cl) = true)
    by reflexivity.
  assert (Hdir : path_exists (sample_env sample_df true false) (cl_fastq_dir sample_cl) = Ok true)
    by reflexivity.
  assert (Hmfa : nrows sample_df = 0
                 \/ isnull (VFloat
                              (ns_min_frequency_alleles_around_cut_to_plot
                                 (parse_args sample_cl))) = false)
    by (right; reflexivity).
  assert (Hw : open_write (sample_env sample_df true false) (cl_outfile sample_cl) = Some OSError)
    by reflexivity.
  assert (He : reraised OSError = false) by reflexivity.
  repeat (split; [assumption|]).
  exact (proj2 (exit_status_zero_also_when_write_fails sample_repr
                  sample_csv_quote (sample_env sample_df true false) sample_cl sample_df
                  Hread Hacc Hchecks Hdir Hmfa)
               OSError Hw He).
Defined.


(** ** The further properties at the sample inputs *)

Lemma missing_dir_never_writes_witness :
  path_exists (sample_env sample_df false true) (cl_fastq_dir sample_cl) <> Ok true
  /\ files (snd (run sample_repr sample_csv_quote (sample_env sample_df false true) sample_cl)) = [].
Proof.
  assert (Hdir : path_exists (sample_env sample_df false true) (cl_fastq_dir sample_cl) <> Ok true)
    by discriminate.
  split; [exact Hdir|].
  apply (missing_dir_never_writes sample_repr sample_csv_quote (sample_env sample_df false true)
           sample_cl).
  exact Hdir.
Defined.


Lemma missing_name_column_raises_KeyError_witness :
  read_excel (sample_env sample_df_no_name_column true true)
    (cl_input_file sample_cl) = Ok sample_df_no_name_column
  /\ null_free sample_df_no_name_column = true
  /\ ~ In "NGS_sample_name" (labels sample_df_no_name_column)
  /\ fst (run sample_repr sample_csv_quote (sample_env sample_df_no_name_column true true)
            sample_cl) = Uncaught (KeyError "NGS_sample_name")
  /\ files (snd (run sample_repr sample_csv_quote (sample_env sample_df_no_name_column true true)
                   sample_cl)) = []
  /\ loc_out_df (snd (run sample_repr sample_csv_quote
                        (sample_env sample_df_no_name_column true true)
                        sample_cl)) = None.
Proof.
  assert (Habsent : ~ In "NGS_sample_name" (labels sample_df_no_name_column))
    by (simpl; intros H; cases_In; discriminate).
  split; [reflexivity|]. split; [reflexivity|]. split; [exact Habsent|].
  apply (missing_name_column_raises_KeyError sample_repr sample_csv_quote
           (sample_env sample_df_no_name_column true true) sample_cl
           sample_df_no_name_column);
    (reflexivity || exact Habsent).
Defined.

Lemma missing_sequence_column_raises_KeyError_witness :
  read_excel (sample_env sample_df_no_guide_column true true)
    (cl_input_file sample_cl) = Ok sample_df_no_guide_column
  /\ names_accepted sample_df_no_guide_column = true
  /\ existence_checks_complete sample_repr
       (sample_env sample_df_no_guide_column true true)
       sample_df_no_guide_column "/data/" = true
  /\ path_exists (sample_env sample_df_no_guide_column true true) "/data/"
     = Ok true
  /\ ("Guide_Sequence" = "Ref_sequence"
      \/ ("Guide_Sequence" = "Guide_Sequence"
          /\ has_sole sample_df_no_guide_column "Ref_sequence" = true))
  /\ ~ In "Guide_Sequence" (labels sample_df_no_guide_column)
  /\ fst (run sample_repr sample_csv_quote (sample_env sample_df_no_guide_column true true)
            sample_cl) = Uncaught (KeyError "Guide_Sequence")
  /\ files (snd (run sample_repr sample_csv_quote (sample_env sample_df_no_guide_column true true)
                   sample_cl)) = []
  /\ In (record INFO "Checking that all paths to fastq files exist..." [])
        (log (snd (run sample_repr sample_csv_quote
                     (sample_env sample_df_no_guide_column true true)
                     sample_cl))).
Proof.
  assert (Hkey : "Guide_Sequence" = "Ref_sequence"
                 \/ ("Guide_Sequence" = "Guide_Sequence"
                     /\ has_sole sample_df_no_guide_column "Ref_sequence"
                        = true))
    by (right; split; reflexivity).
  assert (Habsent : ~ In "Guide_Sequence" (labels sample_df_no_guide_column))
    by (simpl; intros H; cases_In; discriminate).
  repeat (split; [reflexivity|]).
  split; [exact Hkey|]. split; [exact Habsent|].
  apply (missing_sequence_column_raises_KeyError sample_repr
           sample_csv_quote (sample_env sample_df_no_guide_column true true)
           sample_cl sample_df_no_guide_column "Guide_Sequence");
    (reflexivity || exact Hkey || exact Habsent).
Defined.

Lemma non_string_sample_name_raises_TypeError_witness :
  read_excel (sample_env sample_df_numbered true true)
    (cl_input_file sample_cl) = Ok sample_df_numbered
  /\ null_free sample_df_numbered = true
  /\ cell sample_df_numbered "NGS_sample_name" 0 = Some (VInt 1)
  /\ is_str (VInt 1) = false
  /\ fst (run sample_repr sample_csv_quote (sample_env sample_df_numbered true true) sample_cl)
     = Uncaught TypeError
  /\ files (snd (run sample_repr sample_csv_quote (sample_env sample_df_numbered true true)
                   sample_cl)) = [].
Proof.
  repeat (split; [reflexivity|]).
  apply (non_string_sample_name_raises_TypeError sample_repr
           sample_csv_quote (sample_env sample_df_numbered true true)
           sample_cl sample_df_numbered 0 (VInt 1));
    reflexivity.
Defined.

Lemma nan_parameter_fails_final_check_witness :
  read_excel (sample_env sample_df true true) (cl_input_file sample_cl_nan) = Ok sample_df
  /\ input_accepted sample_df = true
  /\ existence_checks_complete sample_repr (sample_env sample_df true true) sample_df "/data/" = true
  /\ path_exists (sample_env sample_df true true) "/data/" = Ok true
  /\ cl_min_frequency_alleles_around_cut_to_plot sample_cl_nan
     = Some S754_nan
  /\ 0 < nrows sample_df
  /\ fst (run sample_repr sample_csv_quote (sample_env sample_df true true) sample_cl_nan) = Uncaught AssertionError
  /\ files (snd (run sample_repr sample_csv_quote (sample_env sample_df true true) sample_cl_nan)) = []
  /\ exists out,
       loc_out_df (snd (run sample_repr sample_csv_quote (sample_env sample_df true true) sample_cl_nan)) = Some out
       /\ labels out = output_header.
Proof.
  assert (Hrows : 0 < nrows sample_df) by (simpl; lia).
  repeat (split; [reflexivity || exact Hrows|]).
  apply (nan_parameter_fails_final_check sample_repr sample_csv_quote (sample_env sample_df true true)
           sample_cl_nan sample_df);
    (reflexivity || exact Hrows).
Defined.

Lemma empty_sheet_writes_header_only_witness :
  read_excel (sample_env sample_df_empty true true)
    (cl_input_file sample_cl_nan) = Ok sample_df_empty
  /\ nrows sample_df_empty = 0
  /\ has_sole sample_df_empty "NGS_sample_name" = true
  /\ has_sole sample_df_empty "Ref_sequence" = true
  /\ has_sole sample_df_empty "Guide_Sequence" = true
  /\ path_exists (sample_env sample_df_empty true true) "/data/" = Ok true
  /\ open_write (sample_env sample_df_empty true true) "input.txt" = None
  /\ fst (run sample_repr sample_csv_quote (sample_env sample_df_empty true true) sample_cl_nan)
     = Exited 0
  /\ files (snd (run sample_repr sample_csv_quote (sample_env sample_df_empty true true)
                   sample_cl_nan))
     = [("input.txt",
         Plain
           (String.concat (String "009"%char EmptyString)
              [ "name"; "quantification_window_center";
                "quantification_window_size"; "min_average_read_quality";
                "fastq_r1"; "fastq_r2"; "amplicon_seq"; "guide_seq";
                "min_frequency_alleles_around_cut_to_plot";
                "plot_window_size" ]
            ++ String "010"%char EmptyString))].
Proof.
  repeat (split; [reflexivity|]).
  apply (empty_sheet_writes_header_only sample_repr sample_csv_quote
           sample_csv_quote_plain (sample_env sample_df_empty true true)
           sample_cl_nan sample_df_empty);
    reflexivity.
Defined.

Lemma logs_only_expected_records_witness :
  In {| levelname := ERROR; msg := "Failed to write file"; args := [];
        exc_info := true |}
     (log (snd (run sample_repr sample_csv_quote (sample_env sample_df true false) sample_cl)))
  /\ msg {| levelname := ERROR; msg := "Failed to write file"; args := [];
            exc_info := true |} <> "Failed to open file"
  /\ (levelname {| levelname := ERROR; msg := "Failed to write file";
                   args := []; exc_info := true |} = ERROR ->
      {| levelname := ERROR; msg := "Failed to write file"; args := [];
         exc_info := true |} = record ERROR "ERROR message." []
      \/ {| levelname := ERROR; msg := "Failed to write file"; args := [];
            exc_info := true |}
         = {| levelname := ERROR; msg := "Failed to write file"; args := [];
              exc_info := true |}).
Proof.
  assert (Hin : In {| levelname := ERROR; msg := "Failed to write file";
                      args := []; exc_info := true |}
                   (log (snd (run sample_repr sample_csv_quote (sample_env sample_df true false) sample_cl))))
    by (vm_compute; auto 20).
  split; [exact Hin|].
  apply (logs_only_expected_records sample_repr sample_csv_quote (sample_env sample_df true false)
           sample_cl).
  exact Hin.
Defined.


Lemma failed_write_still_reports_success_witness :
  read_excel (sample_env sample_df true false) (cl_input_file sample_cl) = Ok sample_df
  /\ input_accepted sample_df = true
  /\ existence_checks_complete sample_repr (sample_env sample_df true false) sample_df "/data/" = true
  /\ path_exists (sample_env sample_df true false) "/data/" = Ok true
  /\ (nrows sample_df = 0
      \/ isnull (VFloat (ns_min_frequency_alleles_around_cut_to_plot
                           (parse_args sample_cl))) = false)
  /\ open_write (sample_env sample_df true false) "input.txt" = Some OSError
  /\ reraised OSError = false
  /\ files (snd (run sample_repr sample_csv_quote (sample_env sample_df true false) sample_cl)) = []
  /\ exists before,
       log (snd (run sample_repr sample_csv_quote (sample_env sample_df true false) sample_cl)) =
       (before
        ++ [ {| levelname := ERROR; msg := "Failed to write file";
                args := []; exc_info := true |};
             record INFO
               "Successfully converted %s to %s for CRISPRessoBatch!"
               [LStr "samples.xlsx"; LStr "input.txt"] ])%list.
Proof.
  assert (Hmfa : nrows sample_df = 0
                 \/ isnull (VFloat
                              (ns_min_frequency_alleles_around_cut_to_plot
                                 (parse_args sample_cl))) = false)
    by (right; reflexivity).
  repeat (split; [reflexivity || exact Hmfa|]).
  apply (failed_write_still_reports_success sample_repr sample_csv_quote
           (sample_env sample_df true false) sample_cl sample_df OSError);
    (reflexivity || exact Hmfa).
Defined.

Lemma read_interrupt_is_reraised_witness :
  read_excel (sample_env_interrupted true) (cl_input_file sample_cl)
  = Raise KeyboardInterrupt
  /\ reraised KeyboardInterrupt = true
  /\ fst (run sample_repr sample_csv_quote (sample_env_interrupted true) sample_cl)
     = outcome_of (Raise KeyboardInterrupt)
  /\ fst (run sample_repr sample_csv_quote (sample_env_interrupted true) sample_cl)
     <> Uncaught AttributeError
  /\ files (snd (run sample_repr sample_csv_quote (sample_env_interrupted true) sample_cl)) = []
  /\ loc_input_df (snd (run sample_repr sample_csv_quote (sample_env_interrupted true) sample_cl))
     = None.
Proof.
  repeat (split; [reflexivity|]).
  apply (read_interrupt_is_reraised sample_repr sample_csv_quote
           (sample_env_interrupted true) sample_cl KeyboardInterrupt);
    reflexivity.
Defined.

Lemma write_interrupt_is_reraised_witness :
  read_excel (sample_env_interrupted false) (cl_input_file sample_cl)
  = Ok sample_df
  /\ input_accepted sample_df = true
  /\ existence_checks_complete sample_repr (sample_env_interrupted false)
       sample_df "/data/" = true
  /\ path_exists (sample_env_interrupted false) "/data/" = Ok true
  /\ (nrows sample_df = 0
      \/ isnull (VFloat (ns_min_frequency_alleles_around_cut_to_plot
                           (parse_args sample_cl))) = false)
  /\ open_write (sample_env_interrupted false) "input.txt"
     = Some KeyboardInterrupt
  /\ reraised KeyboardInterrupt = true
  /\ fst (run sample_repr sample_csv_quote (sample_env_interrupted false) sample_cl)
     = outcome_of (Raise KeyboardInterrupt)
  /\ files (snd (run sample_repr sample_csv_quote (sample_env_interrupted false) sample_cl)) = []
  /\ forall r,
       In r (log (snd (run sample_repr sample_csv_quote (sample_env_interrupted false)
                         sample_cl))) ->
       msg r <> "Failed to write file"
       /\ msg r <> "Successfully converted %s to %s for CRISPRessoBatch!".
Proof.
  assert (Hmfa : nrows sample_df = 0
                 \/ isnull (VFloat
                              (ns_min_frequency_alleles_around_cut_to_plot
                                 (parse_args sample_cl))) = false)
    by (right; reflexivity).
  repeat (split; [reflexivity || exact Hmfa|]).
  apply (write_interrupt_is_reraised sample_repr sample_csv_quote
           (sample_env_interrupted false) sample_cl sample_df
           KeyboardInterrupt);
    (reflexivity || exact Hmfa).
Defined.

Lemma written_table_has_no_missing_value_witness :
  files (snd (run sample_repr sample_csv_quote (sample_env sample_df true true) sample_cl)) <> []
  /\ exists out,
       loc_out_df (snd (run sample_repr sample_csv_quote (sample_env sample_df true true) sample_cl)) = Some out
       /\ files (snd (run sample_repr sample_csv_quote (sample_env sample_df true true) sample_cl)) =
          [("input.txt",
            stored (sample_env sample_df true true) "input.txt"
              (csv_text sample_csv_quote (sample_env sample_df true true) (csv_table sample_repr out)))]
       /\ labels out = output_header
       /\ forall i c, i < nrows out -> In c (columns out) ->
                      isnull (snd c i) = false.
Proof.
  assert (Hf : files (snd (run sample_repr sample_csv_quote (sample_env sample_df true true) sample_cl)) <> [])
    by (vm_compute; discriminate).
  split; [exact Hf|].
  apply (written_table_has_no_missing_value sample_repr sample_csv_quote
           (sample_env sample_df true true) sample_cl).
  exact Hf.
Defined.

